(** * Image resolution of the report generator (src/main.py)

    A shallow embedding of the image-resolution core of the Flask report
    generator: the filename normalisers, the student and project image
    resolvers with their glob matching, the blob download helper, the
    team-photo loop of the document builder and the image scaling
    computation.

    Conventions of the embedding.
    - Python [str] values are Rocq [string]s of 8-bit characters; the
      embedding covers ASCII text: [lower] folds A-Z only and whitespace is
      the ASCII whitespace of [str.split()].
    - [None] is [None]; a dictionary field read with [.get(key, default)] is
      an [option] and the default is written out where the source has it.
    - Calls to the blob store go through the [Storage] interface; each call
      may raise.  Code runs in a small monad that carries the outcome
      (returned value or raised exception) and the trace of store calls.
    - [fnmatch], [requests.utils.unquote], [PIL.Image.open] and
      [docx.shared.Inches] are library functions outside the repository;
      they are modelled from their documented behaviour, each at its
      definition below. *)

From Stdlib Require Import Bool Arith List Ascii String Strings.Byte.
From Stdlib Require Import ZArith QArith Floats Lia.
Import ListNotations.

Local Close Scope Q_scope.
Local Open Scope nat_scope.
Local Open Scope list_scope.
Local Open Scope string_scope.

(** ** Python string operations *)

Module PyStr.

(** Truthiness of a string: [if s] holds for non-empty strings. *)
Definition truthy (s : string) : bool :=
  match s with
  | EmptyString => false
  | String _ _ => true
  end.

Definition code (c : ascii) : nat := nat_of_ascii c.

Definition in_range (lo hi : nat) (c : ascii) : bool :=
  Nat.leb lo (code c) && Nat.leb (code c) hi.

Definition is_upper (c : ascii) : bool := in_range 65 90 c.
Definition is_lower (c : ascii) : bool := in_range 97 122 c.
Definition is_digit (c : ascii) : bool := in_range 48 57 c.

(** Whitespace recognised by [str.split()] in the ASCII range:
    TAB, LF, VT, FF, CR, FS, GS, RS, US and SPACE. *)
Definition is_space (c : ascii) : bool :=
  in_range 9 13 c || in_range 28 32 c.

Definition lower_char (c : ascii) : ascii :=
  if is_upper c then ascii_of_nat (code c + 32) else c.

(** [s.lower()] *)
Fixpoint lower (s : string) : string :=
  match s with
  | EmptyString => EmptyString
  | String c s' => String (lower_char c) (lower s')
  end.

(** [re.sub(r'[^...]', '', s)] for a character class [keep]: the
    characters outside the class are deleted. *)
Fixpoint keep_chars (keep : ascii -> bool) (s : string) : string :=
  match s with
  | EmptyString => EmptyString
  | String c s' =>
      if keep c then String c (keep_chars keep s') else keep_chars keep s'
  end.

(** [c in s] *)
Fixpoint contains_char (c : ascii) (s : string) : bool :=
  match s with
  | EmptyString => false
  | String d s' => Ascii.eqb c d || contains_char c s'
  end.

(** [s[:n]] *)
Fixpoint take (n : nat) (s : string) : string :=
  match n, s with
  | S k, String c s' => String c (take k s')
  | _, _ => EmptyString
  end.

(** [s.startswith(p)] *)
Fixpoint starts_with (p s : string) : bool :=
  match p with
  | EmptyString => true
  | String a p' =>
      match s with
      | EmptyString => false
      | String b s' => Ascii.eqb a b && starts_with p' s'
      end
  end.

(** [s.replace(old, new)] for a non-empty [old]: occurrences are found
    from the left and do not overlap.  [skip] counts the characters of a
    matched occurrence that are still to be passed over. *)
Fixpoint replace_aux (old new : string) (skip : nat) (s : string) : string :=
  match s with
  | EmptyString => EmptyString
  | String c s' =>
      match skip with
      | S k => replace_aux old new k s'
      | O =>
          if starts_with old s
          then new ++ replace_aux old new (String.length old - 1) s'
          else String c (replace_aux old new 0 s')
      end
  end.

Definition replace (old new s : string) : string := replace_aux old new 0 s.

(** [s.split(sep)] for a non-empty [sep]; the result is never empty.
    [cur] is the segment being collected. *)
Fixpoint split_aux (sep : string) (skip : nat) (cur s : string) : list string :=
  match s with
  | EmptyString => [cur]
  | String c s' =>
      match skip with
      | S k => split_aux sep k cur s'
      | O =>
          if starts_with sep s
          then cur :: split_aux sep (String.length sep - 1) EmptyString s'
          else split_aux sep 0 (cur ++ String c EmptyString) s'
      end
  end.

Definition split (sep s : string) : list string :=
  split_aux sep 0 EmptyString s.

(** [xs[-1]] and [xs[0]] on the non-empty result of [split]. *)
Definition last_of (xs : list string) : string := List.last xs EmptyString.
Definition first_of (xs : list string) : string := List.hd EmptyString xs.

(** [s.split()]: maximal runs of non-whitespace characters. *)
Fixpoint split_ws_aux (cur s : string) : list string :=
  match s with
  | EmptyString => if truthy cur then [cur] else []
  | String c s' =>
      if is_space c
      then (if truthy cur then cur :: split_ws_aux EmptyString s'
            else split_ws_aux EmptyString s')
      else split_ws_aux (cur ++ String c EmptyString) s'
  end.

Definition split_ws (s : string) : list string := split_ws_aux EmptyString s.

End PyStr.

(** ** Shell-style matching: [fnmatch.fnmatch]

    Modelled from the library's documentation ([fnmatch.translate] of
    CPython on a POSIX host, where [os.path.normcase] is the identity, so the
    comparison is case-sensitive): [*] matches any run of characters, [?]
    one character, [[seq]] one character of the set, [[!seq]] one character
    outside it; a [[] with no closing bracket is a literal.  Inside a set
    [a-b] is a range (empty when [a] is above [b]), every other character
    stands for itself.  The whole name has to match. *)

Module Fnmatch.

Inductive item : Type :=
| Star
| AnyChar
| CharSet (negated : bool) (ranges : list (ascii * ascii))
| Lit (c : ascii).

(** The characters before the first [']'] and their number. *)
Fixpoint find_close (s : string) : option (string * nat) :=
  match s with
  | EmptyString => None
  | String c s' =>
      if Ascii.eqb c "]" then Some (EmptyString, 0)
      else match find_close s' with
           | Some (body, n) => Some (String c body, S n)
           | None => None
           end
  end.

Fixpoint ranges_of (s : string) : list (ascii * ascii) :=
  match s with
  | EmptyString => []
  | String c s' =>
      match s' with
      | String d (String e s'') =>
          if Ascii.eqb d "-" then (c, e) :: ranges_of s''
          else (c, c) :: ranges_of s'
      | _ => (c, c) :: ranges_of s'
      end
  end.

(** The set that starts after a ['['], when it is closed: whether it is
    negated, its ranges, and the number of pattern characters it takes
    after the ['['] (closing bracket included). *)
Definition bracket (rest : string) : option (bool * list (ascii * ascii) * nat) :=
  let '(neg, r1, n1) :=
    match rest with
    | String "!" r => (true, r, 1)
    | _ => (false, rest, 0)
    end in
  let '(lead, r2, n2) :=
    match r1 with
    | String "]" r => ("]", r, 1)
    | _ => (EmptyString, r1, 0)
    end in
  match find_close r2 with
  | Some (body, n3) => Some (neg, ranges_of (lead ++ body), n1 + n2 + n3 + 1)
  | None => None
  end.

Fixpoint translate_aux (skip : nat) (pat : string) : list item :=
  match pat with
  | EmptyString => []
  | String c rest =>
      match skip with
      | S k => translate_aux k rest
      | O =>
          if Ascii.eqb c "*" then Star :: translate_aux 0 rest
          else if Ascii.eqb c "?" then AnyChar :: translate_aux 0 rest
          else if Ascii.eqb c "[" then
            match bracket rest with
            | Some (neg, rs, n) => CharSet neg rs :: translate_aux n rest
            | None => Lit c :: translate_aux 0 rest
            end
          else Lit c :: translate_aux 0 rest
      end
  end.

Definition translate (pat : string) : list item := translate_aux 0 pat.

Definition in_ranges (rs : list (ascii * ascii)) (c : ascii) : bool :=
  existsb (fun r => Nat.leb (PyStr.code (fst r)) (PyStr.code c)
                    && Nat.leb (PyStr.code c) (PyStr.code (snd r))) rs.

Definition item_ok (it : item) (c : ascii) : bool :=
  match it with
  | Star => true
  | AnyChar => true
  | CharSet neg rs => xorb neg (in_ranges rs c)
  | Lit d => Ascii.eqb c d
  end.

Fixpoint glob_match (items : list item) (s : string) : bool :=
  match items with
  | [] => negb (PyStr.truthy s)
  | Star :: items' =>
      (fix star (s : string) : bool :=
         glob_match items' s
         || match s with
            | EmptyString => false
            | String _ s' => star s'
            end) s
  | it :: items' =>
      match s with
      | EmptyString => false
      | String c s' => item_ok it c && glob_match items' s'
      end
  end.

(** [fnmatch.fnmatch(name, pat)] *)
Definition fnmatch (name pat : string) : bool :=
  glob_match (translate pat) name.

End Fnmatch.

(** ** Percent-decoding: [requests.utils.unquote]

    Modelled from the library's documentation ([urllib.parse.unquote]):
    every [%XX] with two hexadecimal digits becomes the character of code
    [XX]; a [%] that is not followed by two hexadecimal digits stays.  One
    pass decodes one level.  (Codes above 127 stand for themselves here; the
    library reads them as UTF-8.) *)

Module Unquote.

Definition hex_digit (c : ascii) : option nat :=
  if PyStr.is_digit c then Some (PyStr.code c - 48)
  else if PyStr.in_range 97 102 c then Some (PyStr.code c - 87)
  else if PyStr.in_range 65 70 c then Some (PyStr.code c - 55)
  else None.

Fixpoint unquote_aux (skip : nat) (s : string) : string :=
  match s with
  | EmptyString => EmptyString
  | String c s' =>
      match skip with
      | S k => unquote_aux k s'
      | O =>
          if Ascii.eqb c "%" then
            match s' with
            | String h (String l _) =>
                match hex_digit h, hex_digit l with
                | Some a, Some b =>
                    String (ascii_of_nat (16 * a + b)) (unquote_aux 2 s')
                | _, _ => String c (unquote_aux 0 s')
                end
            | _ => String c (unquote_aux 0 s')
            end
          else String c (unquote_aux 0 s')
      end
  end.

Definition unquote (s : string) : string := unquote_aux 0 s.

End Unquote.

(** ** The blob store and the effects of the code *)

Definition bytes : Type := list Byte.byte.

(** What a call does: it returns a value or raises an exception. *)
Inductive outcome (A : Type) : Type :=
| Returned (a : A)
| Raised.
Arguments Returned {A} a.
Arguments Raised {A}.

(** The store as the code sees it: [list_blobs(bucket, prefix=...)] (only the
    names of the listed blobs are used), [blob.exists()] and
    [blob.download_as_bytes()].  Every call is a network round-trip that may
    raise. *)
Record Storage : Type := {
  listed : string -> outcome (list string);
  present : string -> outcome bool;
  content : string -> outcome bytes
}.

(** The store calls a run performs, in order. *)
Inductive call : Type :=
| ListBlobs (prefix : string)
| Exists (path : string)
| Download (path : string).

(** A computation: its outcome and the trace of its store calls. *)
Definition M (A : Type) : Type := outcome A * list call.

Definition ret {A} (a : A) : M A := (Returned a, []).

Definition bind {A B} (m : M A) (f : A -> M B) : M B :=
  match m with
  | (Returned a, t) => let (r, t') := f a in (r, (t ++ t')%list)
  | (Raised, t) => (Raised, t)
  end.

(** [try: body except Exception: handler] *)
Definition try_except {A} (body handler : M A) : M A :=
  match body with
  | (Raised, t) => let (r, t') := handler in (r, (t ++ t')%list)
  | done => done
  end.

Notation "x <- m ;; k" := (bind m (fun x => k))
  (at level 61, m at next level, right associativity).

Definition result {A} (m : M A) : outcome A := fst m.
Definition trace {A} (m : M A) : list call := snd m.

Definition is_listing (prefix : string) (c : call) : bool :=
  match c with
  | ListBlobs p => String.eqb p prefix
  | _ => false
  end.

(** How often the listing of [prefix] was fetched. *)
Definition listing_calls (prefix : string) (t : list call) : nat :=
  List.length (filter (is_listing prefix) t).

(** ** Filename normalisers (main.py, lines 32-42) *)

(** [not x] for a value that is a string or [None]. *)
Definition falsy (x : option string) : bool :=
  match x with
  | None => true
  | Some s => negb (PyStr.truthy s)
  end.

(** [email.replace('@', '_at_').replace('.', '_')] behind the guard. *)
Definition sanitize_filename_for_storage (email : option string) : string :=
  match email with
  | None => "unknown"
  | Some e =>
      if negb (PyStr.truthy e) then "unknown"
      else PyStr.replace "." "_" (PyStr.replace "@" "_at_" e)
  end.

(** The class [[a-zA-Z0-9_.-]] of [clean_filename]. *)
Definition filename_char (c : ascii) : bool :=
  PyStr.is_lower c || PyStr.is_upper c || PyStr.is_digit c
  || Ascii.eqb c "_" || Ascii.eqb c "." || Ascii.eqb c "-".

Definition clean_filename (filename : option string) : string :=
  match filename with
  | None => "unknown"
  | Some f =>
      if negb (PyStr.truthy f) then "unknown"
      else PyStr.keep_chars filename_char f
  end.

(** ** Records

    A project and a student as the code reads them: each field is the
    outcome of looking the key up in the dictionary. *)

Record Student : Type := {
  name : option string;
  email : option string;
  role : option string
}.

Record Project : Type := {
  id : option string;
  title : option string;
  imageUrl : option string;
  students : list Student
}.

(** [d.get(key, default)] *)
Definition get_or (field : option string) (default : string) : string :=
  match field with
  | Some v => v
  | None => default
  end.

(** ** The resolvers, over a store *)

Section Resolvers.

Variable store : Storage.

Definition list_blobs (prefix : string) : M (list string) :=
  (listed store prefix, [ListBlobs prefix]).

Definition blob_exists (path : string) : M bool :=
  (present store path, [Exists path]).

Definition download_as_bytes (path : string) : M bytes :=
  (content store path, [Download path]).

(** main.py, lines 137-153.  [BytesIO(image_data)] is the data itself; the
    stream object is truthy whatever it holds. *)
Definition download_image_from_storage (image_path : string) : M (option bytes) :=
  try_except
    (if negb (PyStr.truthy image_path) then ret None
     else
       found <- blob_exists image_path ;;
       if negb found then ret None
       else
         image_data <- download_as_bytes image_path ;;
         ret (Some image_data))
    (ret None).

(** *** Student image resolver (main.py, lines 44-77) *)

(** [blob.name.lower().split('/')[-1]] *)
Definition blob_filename (blob_name : string) : string :=
  PyStr.last_of (PyStr.split "/" (PyStr.lower blob_name)).

(** The eight templates of [patterns_to_try], before the empty ones are
    dropped (lines 56-65). *)
Definition pattern_templates (student_name : string) : list string :=
  let clean_name := PyStr.replace " " "_" (PyStr.lower student_name) in
  let name_parts := PyStr.split_ws student_name in
  let first_name :=
    match name_parts with
    | [] => ""
    | p :: _ => PyStr.lower p
    end in
  let last_name :=
    if Nat.ltb 1 (List.length name_parts)
    then PyStr.lower (PyStr.last_of name_parts)
    else "" in
  [ "*" ++ clean_name ++ "*";
    if PyStr.truthy last_name then "*" ++ first_name ++ "_" ++ last_name ++ "*" else "";
    "*" ++ first_name ++ "*";
    if PyStr.truthy last_name then "*" ++ first_name ++ "*" ++ last_name ++ "*" else "";
    if PyStr.truthy last_name then "*" ++ last_name ++ "*" ++ first_name ++ "*" else "";
    "*" ++ first_name ++ "*";
    "*" ++ PyStr.keep_chars PyStr.is_lower first_name ++ "*";
    "*" ++ PyStr.keep_chars PyStr.is_lower clean_name ++ "*" ].

(** Line 67: [[p for p in patterns_to_try if p]]. *)
Definition student_patterns (student_name : string) : list string :=
  filter PyStr.truthy (pattern_templates student_name).

(** The test of the inner loop (lines 71-72). *)
Definition student_match (pattern blob_name : string) : bool :=
  Fnmatch.fnmatch (blob_filename blob_name) pattern.

(** The inner loop (lines 70-74): the first listed blob that matches. *)
Fixpoint first_blob (pattern : string) (blobs : list string) : option string :=
  match blobs with
  | [] => None
  | blob :: rest =>
      if student_match pattern blob then Some blob else first_blob pattern rest
  end.

(** The outer loop (lines 69-77). *)
Fixpoint find_first_match (patterns blobs : list string) : option string :=
  match patterns with
  | [] => None
  | pattern :: rest =>
      match first_blob pattern blobs with
      | Some blob => Some blob
      | None => find_first_match rest blobs
      end
  end.

Definition get_student_image_path (student_name : option string) : M (option string) :=
  match student_name with
  | None => ret None
  | Some given =>
      if negb (PyStr.truthy given) then ret None
      else
        blobs <- list_blobs "students/" ;;
        ret (find_first_match (student_patterns given) blobs)
  end.

(** *** Project image resolver (main.py, lines 79-135) *)

(** Lines 87-88: the storage path inside the stored reference, with the
    separator and the space encodings reversed. *)
Definition image_path_of (url : string) : string :=
  let image_path :=
    PyStr.first_of (PyStr.split "?" (PyStr.last_of (PyStr.split "/o/" url))) in
  PyStr.replace "%20" " " (PyStr.replace "%2F" "/" image_path).

(** Lines 87-99, the body of the [try]: [Some] stream when one of the
    [return]s is taken, [None] when control falls out of the block. *)
Definition try_image_url (url : string) : M (option bytes) :=
  let image_path := image_path_of url in
  image_stream <- download_image_from_storage image_path ;;
  match image_stream with
  | Some stream => ret (Some stream)
  | None =>
      let decoded_path := Unquote.unquote image_path in
      if negb (String.eqb decoded_path image_path)
      then download_image_from_storage decoded_path
      else ret None
  end.

(** Lines 103-117. *)
Definition project_patterns (project_id project_title original_title : string)
  : list string :=
  [ "projects/" ++ project_id ++ ".jpg";
    "projects/" ++ project_id ++ ".png";
    "projects/project_" ++ project_id ++ ".jpg";
    "projects/project_" ++ project_id ++ ".png";
    "projects/" ++ project_title ++ ".jpg";
    "projects/" ++ project_title ++ ".png";
    "projects/" ++ original_title ++ ".jpg";
    "projects/" ++ original_title ++ ".png";
    "projects/*" ++ PyStr.take 10 project_title ++ "*.jpg";
    "projects/*" ++ PyStr.take 10 project_title ++ "*.png";
    "projects/dec cap vale.png";
    "projects/IOTbasedRealTimeApp.jpg";
    "projects/Scratch.png" ].

(** The test of line 123: the pattern against the blob's name as listed. *)
Definition project_match (pattern blob_name : string) : bool :=
  Fnmatch.fnmatch blob_name pattern.

(** Lines 122-127: the listed blobs that match the pattern are downloaded in
    listing order until one download gives a stream. *)
Fixpoint try_listed (pattern : string) (blobs : list string) : M (option bytes) :=
  match blobs with
  | [] => ret None
  | blob :: rest =>
      if project_match pattern blob then
        image_stream <- download_image_from_storage blob ;;
        match image_stream with
        | Some stream => ret (Some stream)
        | None => try_listed pattern rest
        end
      else try_listed pattern rest
  end.

(** Lines 120-132: one candidate. *)
Definition try_pattern (pattern : string) : M (option bytes) :=
  if PyStr.contains_char "*" pattern then
    blobs <- list_blobs "projects/" ;;
    try_listed pattern blobs
  else download_image_from_storage pattern.

(** Lines 119-132: the candidates in order. *)
Fixpoint try_patterns (patterns : list string) : M (option bytes) :=
  match patterns with
  | [] => ret None
  | pattern :: rest =>
      image_stream <- try_pattern pattern ;;
      match image_stream with
      | Some stream => ret (Some stream)
      | None => try_patterns rest
      end
  end.

Definition default_project_image : string := "projects/default_project.jpg".

Definition get_project_image (project_data : Project) : M (option bytes) :=
  let project_id := get_or (id project_data) "unknown" in
  let project_title := clean_filename (Some (get_or (title project_data) "unknown")) in
  let original_title := get_or (title project_data) "unknown" in
  from_url <-
    (match imageUrl project_data with
     | Some url =>
         if PyStr.truthy url
         then try_except (try_image_url url) (ret None)
         else ret None
     | None => ret None
     end) ;;
  match from_url with
  | Some stream => ret (Some stream)
  | None =>
      from_patterns <-
        try_patterns (project_patterns project_id project_title original_title) ;;
      match from_patterns with
      | Some stream => ret (Some stream)
      | None => download_image_from_storage default_project_image
      end
  end.

(** *** The document builder's use of the resolvers
    (main.py, lines 316-438)

    Of [create_professional_docx] the calls that reach the store are
    kept: per project the lead image, then one photo cell per student.
    The paragraphs, tables and runs appended to the document do not touch
    the store and are left out. *)

Inductive photo_cell : Type :=
| Picture (student_name : string) (image : bytes)
| Placeholder (student_name : string).

(** Lines 409-434.  A cell is a picture when a stream was downloaded.  (The
    source falls back to a text cell when the document library refuses the
    picture; that library is outside the embedding.) *)
Fixpoint team_photos (students_data : list Student) : M (list photo_cell) :=
  match students_data with
  | [] => ret []
  | student :: rest =>
      let student_name := get_or (name student) "Unknown" in
      image_path <- get_student_image_path (Some student_name) ;;
      image_stream <-
        (match image_path with
         | Some path =>
             if PyStr.truthy path then download_image_from_storage path
             else ret None
         | None => ret None
         end) ;;
      cells <- team_photos rest ;;
      ret (match image_stream with
           | Some image => Picture student_name image
           | None => Placeholder student_name
           end :: cells)
  end.

(** Lines 316-438: the lead image and the photo cells of each project. *)
Fixpoint create_professional_docx (projects_data : list Project)
  : M (list (option bytes * list photo_cell)) :=
  match projects_data with
  | [] => ret []
  | project_data :: rest =>
      image_stream <- get_project_image project_data ;;
      cells <- team_photos (students project_data) ;;
      sections <- create_professional_docx rest ;;
      ret ((image_stream, cells) :: sections)
  end.

End Resolvers.

(** ** Image scaling (main.py, lines 155-179)

    The computation is written once over the arithmetic it uses and read at
    two number types: the rationals, on which the general properties are
    proved, and the binary64 floats that Python computes with. *)

Module Scaling.

Class Arith (T : Type) : Type := {
  of_int : Z -> T;
  divide : T -> T -> option T;   (* [None]: ZeroDivisionError *)
  times : T -> T -> T;
  greater : T -> T -> bool;
  to_int : T -> option Z         (* [int(x)]: towards zero; [None]: it raises *)
}.

Section Generic.

Context {T : Type} `{Arith T}.

(** [min(a, b)]: the first argument unless the second is smaller. *)
Definition min2 (a b : T) : T := if greater a b then b else a.

Definition and_then {A B} (x : option A) (f : A -> option B) : option B :=
  match x with
  | Some a => f a
  | None => None
  end.

(** [docx.shared.Inches(x)]: the length in English Metric Units,
    [int(x * 914400)]. *)
Definition Inches (x : T) : option Z := to_int (times x (of_int 914400)).

(** Lines 160-174: the render width and height, in inches. *)
Definition scaled (width height : Z) (max_width max_height : T) : option (T * T) :=
  and_then (divide (of_int width) (of_int height)) (fun aspect_ratio =>
  and_then
    (if (width >? height)%Z then
       and_then (divide (of_int width) (of_int 100)) (fun w =>
       let new_width := min2 max_width w in
       and_then (divide new_width aspect_ratio) (fun new_height =>
       Some (new_width, new_height)))
     else
       and_then (divide (of_int height) (of_int 100)) (fun h =>
       let new_height := min2 max_height h in
       Some (times new_height aspect_ratio, new_height)))
    (fun '(new_width, new_height) =>
  and_then
    (if greater new_width max_width then
       and_then (divide max_width aspect_ratio) (fun new_height' =>
       Some (max_width, new_height'))
     else Some (new_width, new_height))
    (fun '(new_width, new_height) =>
  if greater new_height max_height
  then Some (times max_height aspect_ratio, max_height)
  else Some (new_width, new_height)))).

(** [Inches(1.5)], the value of the [except] branch. *)
Definition fallback : Z * Z := (1371600, 1371600)%Z.

(** [opened] is the outcome of [Image.open(image_stream)] followed by
    [image.size]: the pixel width and height, or an exception. *)
Definition resize_image_for_docx (opened : outcome (Z * Z))
           (max_width max_height : T) : Z * Z :=
  match opened with
  | Raised => fallback
  | Returned (width, height) =>
      match scaled width height max_width max_height with
      | None => fallback
      | Some (new_width, new_height) =>
          match Inches new_width, Inches new_height with
          | Some w, Some h => (w, h)
          | _, _ => fallback
          end
      end
  end.

End Generic.

(** Exact arithmetic. *)
#[global] Instance Arith_Q : Arith Q := {
  of_int := inject_Z;
  divide := fun a b => if Qeq_bool b 0 then None else Some (a / b)%Q;
  times := Qmult;
  greater := fun a b => negb (Qle_bool a b);
  to_int := fun q => Some (Z.quot (Qnum q) (Zpos (Qden q)))
}.

(** Python's floats.  [int] raises on infinities and NaN. *)
Definition float_of_int (z : Z) : float :=
  SF2Prim (binary_normalize prec emax z 0 false).

Definition int_of_float (x : float) : option Z :=
  match Prim2SF x with
  | S754_zero _ => Some 0%Z
  | S754_finite s m e =>
      let magnitude :=
        if (0 <=? e)%Z then (Zpos m * 2 ^ e)%Z else (Zpos m / 2 ^ (- e))%Z in
      Some (if s then (- magnitude)%Z else magnitude)
  | _ => None
  end.

#[global] Instance Arith_float : Arith float := {
  of_int := float_of_int;
  divide := fun a b =>
    if PrimFloat.eqb b (float_of_int 0) then None else Some (PrimFloat.div a b);
  times := PrimFloat.mul;
  greater := fun a b => PrimFloat.ltb b a;
  to_int := int_of_float
}.

End Scaling.

(** ** A concrete store

    A bucket given by its objects in listing order: listing filters by
    prefix, and downloading a missing object raises. *)

Definition bucket_of (objects : list (string * bytes)) : Storage := {|
  listed := fun prefix =>
    Returned (filter (PyStr.starts_with prefix) (map fst objects));
  present := fun path =>
    Returned (existsb (String.eqb path) (map fst objects));
  content := fun path =>
    match find (fun o => String.eqb path (fst o)) objects with
    | Some o => Returned (snd o)
    | None => Raised
    end
|}.

(** A store that cannot be reached: every call raises. *)
Definition unreachable : Storage := {|
  listed := fun _ => Raised;
  present := fun _ => Raised;
  content := fun _ => Raised
|}.

(** ** Notions used to state the properties *)

(** The last path segment of a storage path. *)
Definition base_filename (blob_name : string) : string :=
  PyStr.last_of (PyStr.split "/" blob_name).

(** A pattern made of wildcard characters only. *)
Fixpoint all_stars (s : string) : bool :=
  match s with
  | EmptyString => true
  | String c s' => Ascii.eqb c "*" && all_stars s'
  end.

Definition wildcard_only (pattern : string) : bool :=
  PyStr.truthy pattern && all_stars pattern.

(** Order-preserving deduplication: the first occurrence of each pattern is
    kept.  [seen] holds the patterns already met. *)
Fixpoint dedup_aux (seen l : list string) : list string :=
  match l with
  | [] => []
  | x :: rest =>
      if existsb (String.eqb x) seen then dedup_aux seen rest
      else x :: dedup_aux (x :: seen) rest
  end.

Definition dedup (l : list string) : list string := dedup_aux [] l.

(** What a download of [path] can give: the data when the path is not
    empty, the blob is reported present and its download returns. *)
Definition stored (store : Storage) (path : string) : option bytes :=
  if PyStr.truthy path then
    match present store path with
    | Returned true =>
        match content store path with
        | Returned data => Some data
        | Raised => None
        end
    | _ => None
    end
  else None.

(** The paths probed with [blob.exists()], in order. *)
Fixpoint probes (t : list call) : list string :=
  match t with
  | [] => []
  | Exists path :: t' => path :: probes t'
  | _ :: t' => probes t'
  end.

(** Whether a student's name, as the team-photo loop reads it, passes the
    resolver's guard. *)
Definition named (student : Student) : bool :=
  PyStr.truthy (get_or (name student) "Unknown").

Definition named_students (projects_data : list Project) : nat :=
  list_sum (map (fun p => List.length (filter named (students p))) projects_data).

(** The store calls of one download: the existence check and, when the blob
    is reported present, the download. *)
Definition download_calls (store : Storage) (path : string) : list call :=
  if PyStr.truthy path then
    match present store path with
    | Returned true => [Exists path; Download path]
    | _ => [Exists path]
    end
  else [].


(** The rendered size stays within the box, on floats. *)
Definition within_box (max_width max_height : float) (size : Z * Z) : bool :=
  match Scaling.scaled (fst size) (snd size) max_width max_height with
  | Some (w, h) => PrimFloat.leb w max_width && PrimFloat.leb h max_height
  | None => false
  end.

(** The pixel sizes from 1 by 1 to [n] by [n]. *)
Definition sizes (n : nat) : list (Z * Z) :=
  list_prod (map Z.of_nat (seq 1 n)) (map Z.of_nat (seq 1 n)).

(** A computation that returns and fetches the [students/] listing [k]
    times. *)
Definition fetches {A} (k : nat) (m : M A) : Prop :=
  (exists a, result m = Returned a)
  /\ listing_calls "students/" (trace m) = k.

(** ** Further notions and the rest of the pipeline *)

Local Open Scope list_scope.

(** A string without the characters that [fnmatch] reads as operators. *)
Fixpoint plain (s : string) : bool :=
  match s with
  | EmptyString => true
  | String c s' =>
      negb (Ascii.eqb c "*") && negb (Ascii.eqb c "?") && negb (Ascii.eqb c "[")
      && plain s'
  end.

(** The items of a pattern that is a literal text. *)
Fixpoint literal_items (s : string) : list Fnmatch.item :=
  match s with
  | EmptyString => []
  | String c s' => Fnmatch.Lit c :: literal_items s'
  end.

(** Every character of a string satisfies a test. *)
Fixpoint all_chars (test : ascii -> bool) (s : string) : bool :=
  match s with
  | EmptyString => true
  | String c s' => test c && all_chars test s'
  end.

(** The lower-cased first word of a name, as [first_name] at line 51. *)
Definition first_name_of (student_name : string) : string :=
  match PyStr.split_ws student_name with
  | [] => EmptyString
  | p :: _ => PyStr.lower p
  end.

(** An image a computation returns is the content of a blob of the store. *)
Definition from_store (store : Storage) (m : M (option bytes)) : Prop :=
  forall data, result m = Returned (Some data) ->
  exists path, stored store path = Some data.

(** The candidates of a project as [get_project_image] builds them. *)
Definition candidates (project_data : Project) : list string :=
  project_patterns
    (get_or (id project_data) "unknown")
    (clean_filename (Some (get_or (title project_data) "unknown")))
    (get_or (title project_data) "unknown").

(** No explicit image reference of the project can be retrieved. *)
Definition reference_unusable (store : Storage) (project_data : Project) : Prop :=
  forall url, imageUrl project_data = Some url ->
    stored store (image_path_of url) = None
    /\ stored store (Unquote.unquote (image_path_of url)) = None.

(** The first stage of [get_project_image] (lines 85-101). *)
Definition url_stage (store : Storage) (project_data : Project) : M (option bytes) :=
  match imageUrl project_data with
  | Some url =>
      if PyStr.truthy url
      then try_except (try_image_url store url) (ret None)
      else ret None
  | None => ret None
  end.

(** The name a photo cell is labelled with. *)
Definition cell_name (c : photo_cell) : string :=
  match c with
  | Picture n _ => n
  | Placeholder n => n
  end.

(** The name of a student as the team-photo loop reads it (line 416). *)
Definition label (student : Student) : string := get_or (name student) "Unknown".

(** A trace in which only the two prefixes are listed and every download
    directly follows an existence check of the same blob that the store
    answered with true. *)
Inductive audited (store : Storage) : list call -> Prop :=
| audited_nil : audited store []
| audited_listing (prefix : string) (t : list call) :
    prefix = "students/" \/ prefix = "projects/" ->
    audited store t -> audited store (ListBlobs prefix :: t)
| audited_exists (path : string) (t : list call) :
    audited store t -> audited store (Exists path :: t)
| audited_download (path : string) (t : list call) :
    present store path = Returned true ->
    audited store t -> audited store (Exists path :: Download path :: t).

(** ** The record store and the fetch (main.py, lines 195-205 and 442-509)

    The documents as the code reads them.  A student document and a project
    document carry what [to_dict()] gives; only the fields the report uses
    are kept.  Every call to the database may raise. *)

Record StudentDoc : Type := {
  student_exists : bool;
  student_fields : Student
}.

(** [project_doc.to_dict()].  [raw_students] is [data['students']] when the
    key is there and holds a list; an entry of the list is a dictionary or
    something else. *)
Record RawProject : Type := {
  raw_title : option string;
  raw_imageUrl : option string;
  raw_students : option (list (option Student));
  supervisorId : option string;
  coSupervisorId : option string
}.

Record ProjectDoc : Type := {
  doc_exists : bool;
  doc_id : string;
  to_dict : outcome RawProject
}.

(** The database: the query on [projects] with its optional status filter
    and limit, the [students] subcollection of a project as the stream of
    its documents (reading stops at the first element that raises), and
    the lookup of a teacher: no such document, or its [name] field. *)
Record Database : Type := {
  stream_projects : option string -> option nat -> outcome (list ProjectDoc);
  stream_students : string -> list (outcome StudentDoc);
  get_teacher : string -> outcome (option (option string))
}.

(** A project as [fetch_all_projects] hands it on. *)
Record Fetched : Type := {
  fetched : Project;
  supervisor_name : string;
  co_supervisor_name : string
}.

(** Lines 195-205. *)
Definition fetch_supervisor_name (db : Database) (supervisor_id : option string)
  : string :=
  match supervisor_id with
  | None => "N/A"
  | Some sid =>
      if negb (PyStr.truthy sid) then "N/A"
      else
        match get_teacher db sid with
        | Returned (Some name_field) => get_or name_field "N/A"
        | Returned None => "N/A"
        | Raised => "N/A"
        end
  end.

(** Lines 470-474 and 484-488: the three fields with their defaults. *)
Definition normalize_student (student : Student) : Student :=
  {| name := Some (get_or (name student) "Unknown");
     email := Some (get_or (email student) "");
     role := Some (get_or (role student) "Student") |}.

(** Lines 467-474: the dictionaries of the embedded list. *)
Fixpoint embedded_students (entries : list (option Student)) : list Student :=
  match entries with
  | [] => []
  | Some student :: rest => normalize_student student :: embedded_students rest
  | None :: rest => embedded_students rest
  end.

(** Lines 478-490: the existing documents of the subcollection, up to the
    first failure; what was read before it is kept. *)
Fixpoint subcollection_students (stream : list (outcome StudentDoc)) : list Student :=
  match stream with
  | [] => []
  | Raised :: _ => []
  | Returned doc :: rest =>
      if student_exists doc
      then normalize_student (student_fields doc) :: subcollection_students rest
      else subcollection_students rest
  end.

(** Lines 464-492. *)
Definition project_students (db : Database) (project_id : string)
           (raw : RawProject) : list Student :=
  let embedded :=
    match raw_students raw with
    | Some entries => embedded_students entries
    | None => []
    end in
  match embedded with
  | [] => subcollection_students (stream_students db project_id)
  | _ => embedded
  end.

(** Lines 456-502, one document: [None] when it is skipped. *)
Definition fetch_project (db : Database) (project_doc : ProjectDoc) : option Fetched :=
  if negb (doc_exists project_doc) then None
  else
    match to_dict project_doc with
    | Raised => None
    | Returned data =>
        Some {| fetched :=
                  {| id := Some (doc_id project_doc);
                     title := raw_title data;
                     imageUrl := raw_imageUrl data;
                     students := project_students db (doc_id project_doc) data |};
                supervisor_name := fetch_supervisor_name db (supervisorId data);
                co_supervisor_name := fetch_supervisor_name db (coSupervisorId data) |}
    end.

Fixpoint fetch_projects (db : Database) (docs : list ProjectDoc) : list Fetched :=
  match docs with
  | [] => []
  | project_doc :: rest =>
      match fetch_project db project_doc with
      | Some data => data :: fetch_projects db rest
      | None => fetch_projects db rest
      end
  end.

(** Lines 442-509. *)
Definition fetch_all_projects (db : Database) (status_filter : option string)
           (limit : option nat) : outcome (list Fetched) :=
  let applied :=
    match status_filter with
    | Some s => if PyStr.truthy s then Some s else None
    | None => None
    end in
  match stream_projects db applied limit with
  | Raised => Raised
  | Returned projects => Returned (fetch_projects db projects)
  end.

(** ** The request handler (main.py, lines 540-607), POST

    The JSON body as the handler reads it, the publication of the document
    (saving it, uploading it and making it public: any step may raise, the
    public link is returned) and the response with its status code. *)

Record Request : Type := {
  status : option string;
  limit : option nat
}.

Record Response : Type := {
  status_code : nat;
  success : bool;
  projects_count : option nat;
  download_url : option string
}.

Definition generate_docx
           (db : Database) (store : Storage)
           (publish : list (option bytes * list photo_cell) -> outcome string)
           (request : Request) : Response * list call :=
  let failure :=
    {| status_code := 500; success := false;
       projects_count := None; download_url := None |} in
  match fetch_all_projects db (status request)
          (Some (match limit request with Some n => n | None => 100 end)) with
  | Raised => (failure, [])
  | Returned [] =>
      ({| status_code := 404; success := false;
          projects_count := None; download_url := None |}, [])
  | Returned projects_data =>
      match create_professional_docx store (map fetched projects_data) with
      | (Raised, t) => (failure, t)
      | (Returned doc, t) =>
          match publish doc with
          | Raised => (failure, t)
          | Returned url =>
              ({| status_code := 200; success := true;
                  projects_count := Some (List.length projects_data);
                  download_url := Some url |}, t)
          end
      end
  end.

(** A document of the query that ends up in the report. *)
Definition usable (project_doc : ProjectDoc) : bool :=
  doc_exists project_doc
  && match to_dict project_doc with
     | Returned _ => true
     | Raised => false
     end.

(** A student with its three fields present. *)
Definition complete (student : Student) : bool :=
  match name student, email student, role student with
  | Some _, Some _, Some _ => true
  | _, _, _ => false
  end.

(** ** The rows of the team photos (main.py, lines 406-434)

    The same loop as [team_photos], read for what it appends to the
    document: a row paragraph is started at every third student, after a
    blank paragraph when a row exists already, and the student's cell is
    added to the current row.  [finished] holds the paragraphs before the
    current row and [current] is [current_row_para]; adding a cell while it
    is [None] would raise. *)

Inductive paragraph : Type :=
| Row (cells : list photo_cell)
| Blank.

Definition photos_per_row : nat := 3.

Fixpoint photo_loop (i : nat) (finished : list paragraph)
         (current : option (list photo_cell)) (cells : list photo_cell)
  : outcome (list paragraph) :=
  match cells with
  | [] =>
      Returned (finished ++ match current with
                            | Some row => [Row row]
                            | None => []
                            end)
  | cell :: rest =>
      let '(finished', current') :=
        if Nat.eqb (i mod photos_per_row) 0
        then (match current with
              | Some row => finished ++ [Row row; Blank]
              | None => finished
              end, Some [])
        else (finished, current) in
      match current' with
      | Some row => photo_loop (S i) finished' (Some (row ++ [cell])) rest
      | None => Raised
      end
  end.

Definition photo_paragraphs (cells : list photo_cell) : outcome (list paragraph) :=
  photo_loop 0 [] None cells.

(** The cells three by three. *)
Fixpoint rows_of_three (cells : list photo_cell) : list (list photo_cell) :=
  match cells with
  | a :: b :: c :: rest => [a; b; c] :: rows_of_three rest
  | [] => []
  | short => [short]
  end.

(** The rows as paragraphs, a blank one between two rows. *)
Fixpoint spaced (rows : list (list photo_cell)) : list paragraph :=
  match rows with
  | [] => []
  | [row] => [Row row]
  | row :: rest => Row row :: Blank :: spaced rest
  end.

(** What the loop has appended when it starts a row at index [i]. *)
Definition laid_out (finished : list paragraph) (current : option (list photo_cell))
           (cells : list photo_cell) : list paragraph :=
  finished
  ++ match current, cells with
     | Some row, [] => [Row row]
     | Some row, _ => Row row :: Blank :: spaced (rows_of_three cells)
     | None, _ => spaced (rows_of_three cells)
     end.

(** * Properties *)

Local Open Scope list_scope.

(** ** Sample evaluations *)

Example fnmatch_samples :
  Fnmatch.fnmatch "ali_khan_photo.jpg" "*ali_khan*" = true
  /\ Fnmatch.fnmatch "alikhan.png" "*ali_khan*" = false
  /\ Fnmatch.fnmatch "a[b" "a[b" = true
  /\ Fnmatch.fnmatch "ac" "a[b-d]" = true
  /\ Fnmatch.fnmatch "ae" "a[!b-d]" = true
  /\ Fnmatch.fnmatch "a]" "a[]]" = true
  /\ Fnmatch.fnmatch "a-" "a[b-]" = true
  /\ Fnmatch.fnmatch "ab" "a[z-a]" = false
  /\ Fnmatch.fnmatch "Robot.jpg" "*robot*" = false.
Proof. repeat split; reflexivity. Qed.

Example split_samples :
  PyStr.split "/o/" "/o/o/" = [""; "o/"]
  /\ PyStr.split "/" "students/a/b.jpg" = ["students"; "a"; "b.jpg"]
  /\ PyStr.split_ws "  Ali   Khan " = ["Ali"; "Khan"]
  /\ PyStr.replace "%2F" "/" "a%2Fb%252Fc" = "a/b%252Fc"
  /\ PyStr.lower "Ali KHAN-9" = "ali khan-9".
Proof. repeat split; reflexivity. Qed.

Example unquote_samples :
  Unquote.unquote "projects%2Fmy%20logo%28v2%29.jpg" = "projects/my logo(v2).jpg"
  /\ Unquote.unquote "projects%252Flogo.jpg" = "projects%2Flogo.jpg"
  /\ Unquote.unquote "100%" = "100%"
  /\ Unquote.unquote "%zz%4a" = "%zzJ".
Proof. repeat split; reflexivity. Qed.

Example scaling_samples :
  Scaling.resize_image_for_docx (Returned (2000, 1000)%Z) (4 : Q) (3 : Q)
  = (3657600, 1828800)%Z
  /\ Scaling.resize_image_for_docx (Returned (2000, 1000)%Z)
       (Scaling.float_of_int 4) (Scaling.float_of_int 3)
     = (3657600, 1828800)%Z
  /\ Scaling.resize_image_for_docx (Returned (300, 0)%Z) (4 : Q) (3 : Q)
     = Scaling.fallback
  /\ Scaling.resize_image_for_docx (Returned (90, 60)%Z) (3 # 2)%Q (3 # 2)%Q
     = (822960, 548640)%Z.
Proof. repeat split; vm_compute; reflexivity. Qed.

(** ** The pattern matcher *)

Lemma first_blob_none (pattern : string) (blobs : list string) :
  (forall c, In c blobs -> student_match pattern c = false) ->
  first_blob pattern blobs = None.
Proof.
  induction blobs as [|c blobs IH]; intros Hno; simpl.
  - reflexivity.
  - rewrite (Hno c (or_introl eq_refl)).
    apply IH. intros d Hd. apply Hno. now right.
Qed.

Lemma first_blob_first (pattern : string) (before : list string)
      (blob : string) (after : list string) :
  (forall c, In c before -> student_match pattern c = false) ->
  student_match pattern blob = true ->
  first_blob pattern (before ++ blob :: after) = Some blob.
Proof.
  induction before as [|c before IH]; intros Hno Hyes; simpl.
  - now rewrite Hyes.
  - rewrite (Hno c (or_introl eq_refl)).
    apply IH; [|assumption]. intros d Hd. apply Hno. now right.
Qed.

Lemma first_blob_some (pattern : string) (blobs : list string) (blob : string) :
  first_blob pattern blobs = Some blob ->
  In blob blobs /\ student_match pattern blob = true.
Proof.
  induction blobs as [|c blobs IH]; simpl; [discriminate|].
  destruct (student_match pattern c) eqn:E.
  - intros [= <-]. split; [now left | assumption].
  - intros H. destruct (IH H) as [Hin Hm]. split; [now right | assumption].
Qed.

Lemma first_blob_none_inv (pattern : string) (blobs : list string) :
  first_blob pattern blobs = None ->
  forall c, In c blobs -> student_match pattern c = false.
Proof.
  induction blobs as [|d blobs IH]; simpl; intros H c Hc; [contradiction|].
  destruct (student_match pattern d) eqn:E; [discriminate|].
  destruct Hc as [<- | Hc]; [assumption | now apply IH].
Qed.

(** C1: the matcher tries the patterns in the given order and, for each
    pattern, the blobs in listing order.  When no pattern before [pattern]
    matches any listed blob, and [blob] is the first listed blob that
    [pattern] matches, the matcher returns [blob], whatever the later
    patterns match and wherever the blobs they match are listed. *)
Theorem find_first_match_pattern_order
        (earlier : list string) (pattern : string) (later : list string)
        (before : list string) (blob : string) (after : list string) :
  (forall q c, In q earlier -> In c (before ++ blob :: after) ->
               student_match q c = false) ->
  (forall c, In c before -> student_match pattern c = false) ->
  student_match pattern blob = true ->
  find_first_match (earlier ++ pattern :: later) (before ++ blob :: after)
  = Some blob.
Proof.
  intros Hearlier Hbefore Hblob.
  induction earlier as [|q earlier IH]; simpl.
  - now rewrite first_blob_first.
  - rewrite first_blob_none.
    + apply IH. intros q' c Hq Hc. apply Hearlier; [now right | assumption].
    + intros c Hc. apply Hearlier; [now left | assumption].
Qed.

(** The sample of the specification: for the patterns [*alice*], [*bob*]
    and the listing [bob.jpg], [alice.jpg] the result is [alice.jpg]. *)
Lemma find_first_match_alice_bob :
  student_match "*alice*" "bob.jpg" = false
  /\ student_match "*alice*" "alice.jpg" = true
  /\ student_match "*bob*" "bob.jpg" = true
  /\ find_first_match ["*alice*"; "*bob*"] ["bob.jpg"; "alice.jpg"]
     = Some "alice.jpg".
Proof.
  split; [reflexivity|]. split; [reflexivity|]. split; [reflexivity|].
  apply (find_first_match_pattern_order
           [] "*alice*" ["*bob*"] ["bob.jpg"] "alice.jpg" []).
  - intros q c [].
  - intros c [<- | []]. reflexivity.
  - reflexivity.
Defined.

Lemma find_first_match_none (patterns blobs : list string) :
  find_first_match patterns blobs = None <->
  (forall p c, In p patterns -> In c blobs -> student_match p c = false).
Proof.
  induction patterns as [|q patterns IH]; simpl.
  - split; [intros _ p c [] | reflexivity].
  - destruct (first_blob q blobs) as [b|] eqn:E.
    + split; [discriminate|]. intros H.
      destruct (first_blob_some _ _ _ E) as [Hin Hm].
      rewrite (H q b (or_introl eq_refl) Hin) in Hm. discriminate.
    + rewrite IH. split.
      * intros H p c [<- | Hp] Hc; [| now apply H].
        now apply (first_blob_none_inv _ _ E).
      * intros H p c Hp Hc. apply H; [now right | assumption].
Qed.

(** The same on the resolver itself: for the student "Alice Bob" and the
    listing [students/bob.jpg], [students/alice.jpg] the photo found is
    Alice's, through the first-name pattern. *)
Example get_student_image_path_alice_bob :
  get_student_image_path
    (bucket_of [("students/bob.jpg", []); ("students/alice.jpg", [])])
    (Some "Alice Bob")
  = (Returned (Some "students/alice.jpg"), [ListBlobs "students/"]).
Proof. vm_compute. reflexivity. Qed.

(** The samples of the specification for "Ali Khan". *)
Example get_student_image_path_ali_khan :
  result (get_student_image_path
            (bucket_of [("students/ali_khan_photo.jpg", [])]) (Some "Ali Khan"))
  = Returned (Some "students/ali_khan_photo.jpg")
  /\ result (get_student_image_path
               (bucket_of [("students/alikhan.png", [])]) (Some "Ali Khan"))
     = Returned (Some "students/alikhan.png")
  /\ result (get_student_image_path (bucket_of []) (Some "Ali Khan"))
     = Returned None.
Proof. repeat split; vm_compute; reflexivity. Qed.

(** ** The candidate patterns of the student resolver *)

Lemma existsb_eqb_In (x : string) (l : list string) :
  existsb (String.eqb x) l = true <-> In x l.
Proof.
  rewrite existsb_exists. split.
  - intros [y [Hy E]]. apply String.eqb_eq in E. now subst.
  - intros H. exists x. split; [assumption | apply String.eqb_refl].
Qed.

Lemma dedup_aux_spec (l seen : list string) :
  NoDup (dedup_aux seen l)
  /\ (forall x, In x (dedup_aux seen l) -> In x l /\ ~ In x seen).
Proof.
  revert seen. induction l as [|x l IH]; intros seen; simpl.
  - split; [constructor | intros x []].
  - destruct (existsb (String.eqb x) seen) eqn:E.
    + destruct (IH seen) as [Hnd Hin]. split; [assumption|].
      intros y Hy. destruct (Hin y Hy). split; [now right | assumption].
    + destruct (IH (x :: seen)) as [Hnd Hin]. split.
      * constructor; [|assumption].
        intros Hx. destruct (Hin x Hx) as [_ Hn]. apply Hn. now left.
      * intros y [<- | Hy].
        -- split; [now left|]. intros Hs.
           apply existsb_eqb_In in Hs. congruence.
        -- destruct (Hin y Hy) as [H1 H2]. split; [now right|].
           intros Hs. apply H2. now right.
Qed.

Lemma find_first_match_dedup_aux (blobs l seen : list string) :
  (forall p, In p seen -> first_blob p blobs = None) ->
  find_first_match (dedup_aux seen l) blobs = find_first_match l blobs.
Proof.
  revert seen. induction l as [|x l IH]; intros seen Hseen; simpl.
  - reflexivity.
  - destruct (existsb (String.eqb x) seen) eqn:E.
    + apply existsb_eqb_In in E. rewrite (Hseen x E). now apply IH.
    + simpl. destruct (first_blob x blobs) eqn:F; [reflexivity|].
      apply IH. intros p [<- | Hp]; [assumption | now apply Hseen].
Qed.

Lemma repeated_not_NoDup (p : string) (l1 l2 l3 : list string) :
  ~ NoDup (l1 ++ p :: l2 ++ p :: l3).
Proof.
  intros H. apply NoDup_remove_2 in H. apply H.
  apply in_or_app. right. apply in_or_app. right. now left.
Qed.

(** The first-name pattern is written twice in the template list and both
    copies survive the filter. *)
Lemma student_patterns_repeat (student_name : string) :
  exists p l1 l2 l3, student_patterns student_name = l1 ++ p :: l2 ++ p :: l3.
Proof.
  unfold student_patterns, pattern_templates. cbv zeta.
  match goal with
  | |- context [ [?a; ?b; ?p; ?c; ?d; ?p; ?e; ?g] ] =>
      exists p, (filter PyStr.truthy [a; b]), (filter PyStr.truthy [c; d]),
        (filter PyStr.truthy [e; g]);
      change [a; b; p; c; d; p; e; g]
        with ([a; b] ++ p :: [c; d] ++ p :: [e; g])%list
  end.
  rewrite filter_app. cbn [filter]. cbn [append PyStr.truthy].
  rewrite filter_app. cbn [filter]. cbn [append PyStr.truthy].
  reflexivity.
Qed.

(** C4 (as the code has it): the candidate sequence is not deduplicated:
    for every name some pattern occurs twice in the sequence that is
    matched.  A repeated pattern does not change the outcome: matching the
    sequence gives the blob that matching its order-preserving
    deduplication gives. *)
Theorem student_patterns_duplicates_harmless
        (student_name : string) (blobs : list string) :
  ~ NoDup (student_patterns student_name)
  /\ NoDup (dedup (student_patterns student_name))
  /\ find_first_match (student_patterns student_name) blobs
     = find_first_match (dedup (student_patterns student_name)) blobs.
Proof.
  split; [|split].
  - destruct (student_patterns_repeat student_name) as (p & l1 & l2 & l3 & E).
    rewrite E. apply repeated_not_NoDup.
  - apply dedup_aux_spec.
  - symmetry. apply find_first_match_dedup_aux. intros p [].
Qed.

(** C4, the claim refuted: the sequence matched for "Ali Khan" holds
    [*ali_khan*] twice and [*ali*] three times. *)
Lemma student_patterns_ali_khan_not_deduplicated :
  student_patterns "Ali Khan"
  = ["*ali_khan*"; "*ali_khan*"; "*ali*"; "*ali*khan*"; "*khan*ali*";
     "*ali*"; "*ali*"; "*alikhan*"]
  /\ ~ NoDup (student_patterns "Ali Khan").
Proof.
  split; [reflexivity|].
  change (student_patterns "Ali Khan")
    with ([] ++ "*ali_khan*" :: [] ++ "*ali_khan*"
            :: ["*ali*"; "*ali*khan*"; "*khan*ali*"; "*ali*"; "*ali*"; "*alikhan*"])%list.
  apply repeated_not_NoDup.
Qed.

(** ** Wildcard-only patterns *)

Lemma glob_match_star_all (s : string) : Fnmatch.glob_match [Fnmatch.Star] s = true.
Proof.
  induction s as [|c s IH]; [reflexivity|].
  simpl. simpl in IH. exact IH.
Qed.

Lemma fnmatch_double_star (filename : string) : Fnmatch.fnmatch filename "**" = true.
Proof.
  unfold Fnmatch.fnmatch.
  change (Fnmatch.translate "**") with [Fnmatch.Star; Fnmatch.Star].
  destruct filename as [|c s]; [reflexivity|].
  change (Fnmatch.glob_match [Fnmatch.Star; Fnmatch.Star] (String c s))
    with (Fnmatch.glob_match [Fnmatch.Star] (String c s)
          || Fnmatch.glob_match [Fnmatch.Star; Fnmatch.Star] s).
  now rewrite glob_match_star_all.
Qed.

(** A name guarded away produces no pattern at all: the listing is not even
    fetched. *)
Lemma get_student_image_path_guard (store : Storage) (student_name : option string) :
  falsy student_name = true ->
  get_student_image_path store student_name = (Returned None, []).
Proof.
  destruct student_name as [[|c s]|]; simpl; intros H;
    [reflexivity | discriminate | reflexivity].
Qed.

Lemma starts_with_append (s t : string) : PyStr.starts_with s (s ++ t)%string = true.
Proof.
  induction s as [|c s IH]; simpl; [reflexivity|].
  now rewrite Ascii.eqb_refl.
Qed.

(** Every candidate of the project resolver carries the [projects/] prefix,
    so none is made of wildcards only. *)
Lemma project_patterns_not_wildcard_only
      (project_id project_title original_title pattern : string) :
  In pattern (project_patterns project_id project_title original_title) ->
  PyStr.starts_with "projects/" pattern = true /\ wildcard_only pattern = false.
Proof.
  unfold project_patterns. intros H.
  repeat (destruct H as [<- | H];
          [split; [apply (starts_with_append "projects/") | reflexivity] |]).
  contradiction.
Qed.

(** C5, evaluated where the code departs from it: for a name of one space
    the candidates are [*_*] and then [**], a pattern of wildcards only that
    matches every filename, so the resolver hands out whatever blob is
    listed first; a name without letters ("42") yields [**] as well. *)
Theorem student_patterns_wildcard_only :
  student_patterns " " = ["*_*"; "**"; "**"; "**"; "**"]
  /\ student_patterns "42" = ["*42*"; "*42*"; "*42*"; "**"; "**"]
  /\ wildcard_only "**" = true
  /\ (forall filename, Fnmatch.fnmatch filename "**" = true)
  /\ result (get_student_image_path
               (bucket_of [("students/zara.png", [])]) (Some " "))
     = Returned (Some "students/zara.png").
Proof.
  split; [reflexivity|]. split; [reflexivity|]. split; [reflexivity|].
  split; [exact fnmatch_double_star | vm_compute; reflexivity].
Qed.

(** ** The filename normalisers *)

(** C6: on an empty or absent input both normalisers return the token
    "unknown".  (They are functions on every string-or-absent input, so
    they are deterministic and raise on none.) *)
Theorem normalizers_sentinel (x : option string) :
  falsy x = true ->
  clean_filename x = "unknown" /\ sanitize_filename_for_storage x = "unknown".
Proof.
  destruct x as [[|c s]|]; simpl; intros H; try discriminate; split; reflexivity.
Qed.

Lemma normalizers_sentinel_empty :
  falsy (Some "") = true
  /\ clean_filename (Some "") = "unknown"
  /\ sanitize_filename_for_storage (Some "") = "unknown".
Proof.
  split; [reflexivity|]. apply (normalizers_sentinel (Some "")). reflexivity.
Defined.

Example normalizers_samples :
  clean_filename (Some "My Project: v2.0 (final)!") = "MyProjectv2.0final"
  /\ clean_filename None = "unknown"
  /\ sanitize_filename_for_storage (Some "ali.khan@uni.edu") = "ali_khan_at_uni_edu"
  /\ sanitize_filename_for_storage None = "unknown".
Proof. repeat split; reflexivity. Qed.

(** ** Case and path in the comparison *)

Lemma lower_char_idempotent (c : ascii) :
  PyStr.lower_char (PyStr.lower_char c) = PyStr.lower_char c.
Proof. destruct c as [[] [] [] [] [] [] [] []]; reflexivity. Qed.

Lemma lower_char_slash (c : ascii) :
  Ascii.eqb "/" (PyStr.lower_char c) = Ascii.eqb "/" c.
Proof. destruct c as [[] [] [] [] [] [] [] []]; reflexivity. Qed.

Lemma lower_char_space (c : ascii) :
  PyStr.is_space (PyStr.lower_char c) = PyStr.is_space c.
Proof. destruct c as [[] [] [] [] [] [] [] []]; reflexivity. Qed.

Lemma lower_idempotent (s : string) : PyStr.lower (PyStr.lower s) = PyStr.lower s.
Proof.
  induction s as [|c s IH]; simpl; [reflexivity|].
  now rewrite lower_char_idempotent, IH.
Qed.

Lemma lower_append (s t : string) :
  PyStr.lower (s ++ t)%string = (PyStr.lower s ++ PyStr.lower t)%string.
Proof. induction s as [|c s IH]; simpl; [reflexivity | now rewrite IH]. Qed.

Lemma truthy_lower (s : string) : PyStr.truthy (PyStr.lower s) = PyStr.truthy s.
Proof. now destruct s. Qed.

Lemma last_of_map_lower (l : list string) :
  PyStr.last_of (map PyStr.lower l) = PyStr.lower (PyStr.last_of l).
Proof.
  unfold PyStr.last_of.
  induction l as [|x [|y l] IH]; [reflexivity | reflexivity |].
  exact IH.
Qed.

Lemma split_slash_lower (s cur : string) :
  PyStr.split_aux "/" 0 (PyStr.lower cur) (PyStr.lower s)
  = map PyStr.lower (PyStr.split_aux "/" 0 cur s).
Proof.
  revert cur. induction s as [|c s IH]; intros cur; [reflexivity|].
  cbn [PyStr.lower PyStr.split_aux PyStr.starts_with String.length Nat.sub].
  rewrite lower_char_slash.
  destruct (Ascii.eqb "/" c); cbn [andb map].
  - f_equal. exact (IH EmptyString).
  - rewrite <- IH, lower_append. reflexivity.
Qed.

Lemma split_ws_lower (s cur : string) :
  PyStr.split_ws_aux (PyStr.lower cur) (PyStr.lower s)
  = map PyStr.lower (PyStr.split_ws_aux cur s).
Proof.
  revert cur. induction s as [|c s IH]; intros cur;
    cbn [PyStr.lower PyStr.split_ws_aux].
  - rewrite truthy_lower. now destruct (PyStr.truthy cur).
  - rewrite lower_char_space, truthy_lower.
    destruct (PyStr.is_space c).
    + destruct (PyStr.truthy cur); cbn [map]; [f_equal|]; exact (IH EmptyString).
    + rewrite <- IH, lower_append. reflexivity.
Qed.

(** The filename the student resolver compares is the lower-cased last
    path segment. *)
Lemma blob_filename_base (blob_name : string) :
  blob_filename blob_name = PyStr.lower (base_filename blob_name).
Proof.
  unfold blob_filename, base_filename, PyStr.split.
  pose proof (split_slash_lower blob_name EmptyString) as E.
  cbn [PyStr.lower] in E. rewrite E.
  apply last_of_map_lower.
Qed.

(** The candidate patterns depend on the student's name up to case only. *)
Lemma pattern_templates_lower (student_name : string) :
  pattern_templates (PyStr.lower student_name) = pattern_templates student_name.
Proof.
  unfold pattern_templates, PyStr.split_ws.
  pose proof (split_ws_lower student_name EmptyString) as E.
  cbn [PyStr.lower] in E. rewrite E, lower_idempotent.
  rewrite length_map, last_of_map_lower, lower_idempotent.
  destruct (PyStr.split_ws_aux "" student_name) as [|p l]; simpl;
    [reflexivity | now rewrite lower_idempotent].
Qed.

Lemma student_patterns_lower (student_name : string) :
  student_patterns (PyStr.lower student_name) = student_patterns student_name.
Proof. unfold student_patterns. now rewrite pattern_templates_lower. Qed.

(** ** Running computations *)

Lemma bind_returned {A B} (a : A) (t : list call) (f : A -> M B) :
  bind (Returned a, t) f = (result (f a), t ++ trace (f a)).
Proof. unfold bind, result, trace. now destruct (f a). Qed.

Lemma bind_run {A B} (m : M A) (f : A -> M B) (a : A) :
  result m = Returned a ->
  bind m f = (result (f a), trace m ++ trace (f a)).
Proof.
  destruct m as [r t]. simpl. intros ->. apply bind_returned.
Qed.

Lemma bind_raised {A B} (m : M A) (f : A -> M B) :
  result m = Raised -> bind m f = (Raised, trace m).
Proof. destruct m as [r t]. simpl. now intros ->. Qed.

Lemma try_except_returned {A} (m handler : M A) (a : A) :
  result m = Returned a -> try_except m handler = m.
Proof. destruct m as [r t]. simpl. now intros ->. Qed.

Lemma listing_calls_app (prefix : string) (t1 t2 : list call) :
  listing_calls prefix (t1 ++ t2)
  = listing_calls prefix t1 + listing_calls prefix t2.
Proof. unfold listing_calls. now rewrite filter_app, length_app. Qed.

Lemma probes_app (t1 t2 : list call) : probes (t1 ++ t2) = probes t1 ++ probes t2.
Proof.
  induction t1 as [|c t1 IH]; simpl; [reflexivity|].
  destruct c; simpl; now rewrite IH.
Qed.

(** A download never raises: every failure is turned into "no image". *)
Lemma download_run (store : Storage) (path : string) :
  download_image_from_storage store path
  = (Returned (stored store path), download_calls store path).
Proof.
  unfold download_image_from_storage, stored, download_calls,
    blob_exists, download_as_bytes, try_except, bind, ret.
  destruct (PyStr.truthy path); simpl; [|reflexivity].
  destruct (present store path) as [[|]|]; simpl; try reflexivity.
  destruct (content store path); reflexivity.
Qed.

Lemma download_calls_no_listing (store : Storage) (prefix path : string) :
  listing_calls prefix (download_calls store path) = 0.
Proof.
  unfold download_calls.
  destruct (PyStr.truthy path); [|reflexivity].
  destruct (present store path) as [[|]|]; reflexivity.
Qed.

Lemma download_calls_probes (store : Storage) (path : string) :
  probes (download_calls store path) = if PyStr.truthy path then [path] else [].
Proof.
  unfold download_calls.
  destruct (PyStr.truthy path); [|reflexivity].
  destruct (present store path) as [[|]|]; reflexivity.
Qed.

(** ** The wildcard step of the project resolver *)

Lemma try_listed_first (store : Storage) (pattern : string)
      (before : list string) (blob : string) (after : list string) (data : bytes) :
  (forall c, In c before -> project_match pattern c = false) ->
  project_match pattern blob = true ->
  stored store blob = Some data ->
  result (try_listed store pattern (before ++ blob :: after)) = Returned (Some data).
Proof.
  intros Hbefore Hblob Hdata.
  induction before as [|c before IH]; simpl.
  - rewrite Hblob, download_run, bind_returned, Hdata. reflexivity.
  - rewrite (Hbefore c (or_introl eq_refl)).
    apply IH. intros d Hd. apply Hbefore. now right.
Qed.

(** C3 (as the code has it): the student resolver compares each pattern,
    which is built from the lower-cased name, with the lower-cased last path
    segment of the blob: names equal up to case and blobs whose base
    filenames are equal up to case give the same comparisons.  The project
    resolver's wildcard candidates carry the [projects/] prefix and are
    compared, with their case, against the blob's full name as listed: the
    first listed blob whose full name matches and that can be retrieved is
    the result of the step. *)
Theorem comparison_case_and_path :
  (forall name1 name2 blob1 blob2 : string,
      PyStr.lower name1 = PyStr.lower name2 ->
      PyStr.lower (base_filename blob1) = PyStr.lower (base_filename blob2) ->
      map (fun p => student_match p blob1) (student_patterns name1)
      = map (fun p => student_match p blob2) (student_patterns name2))
  /\ (forall project_id project_title original_title pattern : string,
         In pattern (project_patterns project_id project_title original_title) ->
         PyStr.starts_with "projects/" pattern = true)
  /\ (forall (store : Storage) (pattern : string) (before : list string)
             (blob : string) (after : list string) (data : bytes),
         (forall c, In c before -> project_match pattern c = false) ->
         project_match pattern blob = true ->
         stored store blob = Some data ->
         result (try_listed store pattern (before ++ blob :: after))
         = Returned (Some data)).
Proof.
  split; [|split].
  - intros name1 name2 blob1 blob2 Hname Hblob.
    rewrite <- (student_patterns_lower name1), <- (student_patterns_lower name2).
    rewrite Hname. apply map_ext. intros p.
    unfold student_match. now rewrite !blob_filename_base, Hblob.
  - intros project_id project_title original_title pattern H.
    now apply (project_patterns_not_wildcard_only _ _ _ _ H).
  - exact try_listed_first.
Qed.

Lemma comparison_case_and_path_sample :
  map (fun p => student_match p "students/Ali_Khan.JPG") (student_patterns "Ali Khan")
  = map (fun p => student_match p "archive/2024/ali_khan.jpg") (student_patterns "ALI KHAN")
  /\ PyStr.starts_with "projects/" "projects/*Robotics*.jpg" = true
  /\ result (try_listed (bucket_of [("projects/my_Robotics_v2.jpg", [x2a])])
               "projects/*Robotics*.jpg"
               (["projects/cover.jpg"] ++ "projects/my_Robotics_v2.jpg" :: []))
     = Returned (Some [x2a]).
Proof.
  split; [|split].
  - apply (proj1 comparison_case_and_path); reflexivity.
  - apply (proj1 (proj2 comparison_case_and_path) "p1" "Robotics" "Robotics").
    simpl. tauto.
  - apply (proj2 (proj2 comparison_case_and_path)).
    + intros c [<- | []]. reflexivity.
    + reflexivity.
    + reflexivity.
Defined.

(** C3, the claim refuted for the project resolver: with the title
    "Robotics" the wildcard candidate [projects/*Robotics*.jpg] tells apart
    two blobs whose base filenames differ in case only, and it matches a
    blob through its directory although the base filename [cover.jpg] holds
    nothing of the title. *)
Lemma project_match_full_path_with_case :
  In "projects/*Robotics*.jpg" (project_patterns "p1" "Robotics" "Robotics")
  /\ PyStr.lower (base_filename "projects/my_Robotics_v2.jpg")
     = PyStr.lower (base_filename "projects/my_robotics_v2.jpg")
  /\ project_match "projects/*Robotics*.jpg" "projects/my_Robotics_v2.jpg" = true
  /\ project_match "projects/*Robotics*.jpg" "projects/my_robotics_v2.jpg" = false
  /\ base_filename "projects/Robotics/cover.jpg" = base_filename "projects/cover.jpg"
  /\ project_match "projects/*Robotics*.jpg" "projects/Robotics/cover.jpg" = true
  /\ project_match "projects/*Robotics*.jpg" "projects/cover.jpg" = false
  /\ result (get_project_image
               (bucket_of [("projects/my_Robotics_v2.jpg", [x2a])])
               {| id := Some "p1"; title := Some "Robotics";
                  imageUrl := None; students := [] |})
     = Returned (Some [x2a])
  /\ result (get_project_image
               (bucket_of [("projects/my_robotics_v2.jpg", [x2a])])
               {| id := Some "p1"; title := Some "Robotics";
                  imageUrl := None; students := [] |})
     = Returned None.
Proof.
  split; [simpl; tauto|].
  repeat split; vm_compute; reflexivity.
Qed.

(** ** The explicit image reference *)

Lemma try_image_url_run (store : Storage) (url : string) :
  let p1 := image_path_of url in
  let p2 := Unquote.unquote p1 in
  try_image_url store url
  = match stored store p1 with
    | Some data => (Returned (Some data), download_calls store p1)
    | None =>
        if String.eqb p2 p1 then (Returned None, download_calls store p1)
        else (Returned (stored store p2),
              download_calls store p1 ++ download_calls store p2)
    end.
Proof.
  intros p1 p2. unfold try_image_url. fold p1. fold p2.
  rewrite download_run, bind_returned.
  destruct (stored store p1) as [data|]; simpl.
  - now rewrite app_nil_r.
  - destruct (String.eqb p2 p1); simpl.
    + now rewrite app_nil_r.
    + now rewrite download_run.
Qed.

(** C7 (as the code has it): for a project that carries an explicit image
    reference, the path with [%2F] and [%20] reversed is tried first; the
    fully percent-decoded path is tried only when that retrieval failed and
    the decoding changed the path, and then once; the result is the first
    of the two that can be retrieved, and when there is one the resolver
    returns it without trying any candidate pattern. *)
Theorem get_project_image_explicit_reference
        (store : Storage) (project_data : Project) (url : string) :
  imageUrl project_data = Some url ->
  PyStr.truthy url = true ->
  let p1 := image_path_of url in
  let p2 := Unquote.unquote p1 in
  let found :=
    match stored store p1 with
    | Some data => Some data
    | None => stored store p2
    end in
  result (try_image_url store url) = Returned found
  /\ probes (trace (try_image_url store url))
     = match stored store p1 with
       | Some _ => [p1]
       | None =>
           if String.eqb p2 p1 then (if PyStr.truthy p1 then [p1] else [])
           else (if PyStr.truthy p1 then [p1] else [])
                  ++ (if PyStr.truthy p2 then [p2] else [])
       end
  /\ (forall data, found = Some data ->
        get_project_image store project_data
        = (Returned (Some data), trace (try_image_url store url))).
Proof.
  intros Hurl Htruthy p1 p2 found.
  pose proof (try_image_url_run store url) as Hrun.
  cbv zeta in Hrun. fold p1 in Hrun. fold p2 in Hrun.
  assert (Hp1 : forall data, stored store p1 = Some data -> PyStr.truthy p1 = true).
  { unfold stored. destruct (PyStr.truthy p1); [reflexivity | discriminate]. }
  assert (Hres : result (try_image_url store url) = Returned found).
  { rewrite Hrun. unfold found.
    destruct (stored store p1) as [data|] eqn:E1; [reflexivity|].
    destruct (String.eqb p2 p1) eqn:E; [|reflexivity].
    apply String.eqb_eq in E. rewrite E, E1. reflexivity. }
  split; [exact Hres | split].
  - rewrite Hrun.
    destruct (stored store p1) as [data|] eqn:E1.
    + simpl. rewrite download_calls_probes, (Hp1 data eq_refl). reflexivity.
    + destruct (String.eqb p2 p1); simpl.
      * apply download_calls_probes.
      * now rewrite probes_app, !download_calls_probes.
  - intros data Hfound. unfold get_project_image.
    rewrite Hurl. cbv beta iota zeta. rewrite Htruthy.
    rewrite (try_except_returned _ _ _ Hres).
    rewrite (bind_run _ _ _ Hres), Hfound. simpl.
    now rewrite app_nil_r.
Qed.

(** A stored reference that needs the full decoding pass: resolved at the
    second attempt, not at the first. *)
Lemma get_project_image_second_attempt :
  get_project_image
    (bucket_of [("projects/my logo(v2).jpg", [x2a])])
    {| id := Some "p1"; title := Some "Robotics";
       imageUrl := Some "https://storage.example/v0/b/app/o/projects%2Fmy%20logo%28v2%29.jpg?alt=media";
       students := [] |}
  = (Returned (Some [x2a]),
     [Exists "projects/my logo%28v2%29.jpg";
      Exists "projects/my logo(v2).jpg"; Download "projects/my logo(v2).jpg"]).
Proof.
  apply (proj2 (proj2 (get_project_image_explicit_reference
                         (bucket_of [("projects/my logo(v2).jpg", [x2a])])
                         {| id := Some "p1"; title := Some "Robotics";
                            imageUrl := Some "https://storage.example/v0/b/app/o/projects%2Fmy%20logo%28v2%29.jpg?alt=media";
                            students := [] |}
                         "https://storage.example/v0/b/app/o/projects%2Fmy%20logo%28v2%29.jpg?alt=media"
                         eq_refl eq_refl)) [x2a]).
  reflexivity.
Defined.

(** C7, the claim refuted: the reference to [projects/team logo.jpg]
    encoded twice.  The first pass leaves it as it is, the second pass
    decodes one level only, and neither path is the blob's: both attempts
    fail, and the resolver ends without an image although the blob is
    stored. *)
Lemma double_encoded_reference_not_resolved :
  stored (bucket_of [("projects/team logo.jpg", [x2a])]) "projects/team logo.jpg"
  = Some [x2a]
  /\ try_image_url
       (bucket_of [("projects/team logo.jpg", [x2a])])
       "https://storage.example/v0/b/app/o/projects%252Fteam%2520logo.jpg?alt=media"
     = (Returned None,
        [Exists "projects%252Fteam%2520logo.jpg";
         Exists "projects%2Fteam%20logo.jpg"])
  /\ result (get_project_image
               (bucket_of [("projects/team logo.jpg", [x2a])])
               {| id := Some "p7"; title := Some "Portfolio";
                  imageUrl := Some "https://storage.example/v0/b/app/o/projects%252Fteam%2520logo.jpg?alt=media";
                  students := [] |})
     = Returned None.
Proof. repeat split; vm_compute; reflexivity. Qed.

(** ** The default asset *)






(** The two ways the default asset can be missing: absent from the bucket,
    and present with a download that raises. *)
Example get_project_image_default_missing :
  result (get_project_image (bucket_of [])
            {| id := Some "p1"; title := Some "Robotics";
               imageUrl := None; students := [] |})
  = Returned None
  /\ result (get_project_image
               {| listed := fun _ => Returned [];
                  present := fun path => Returned (String.eqb path default_project_image);
                  content := fun _ => Raised |}
               {| id := Some "p1"; title := Some "Robotics";
                  imageUrl := None; students := [] |})
     = Returned None.
Proof. split; vm_compute; reflexivity. Qed.

(** A listing that raises is not caught by the resolvers: the exception
    leaves them. *)
Example listing_failure_propagates :
  result (get_project_image unreachable
            {| id := Some "p1"; title := Some "Robotics";
               imageUrl := None; students := [] |})
  = Raised
  /\ result (get_student_image_path unreachable (Some "Ali Khan")) = Raised.
Proof. split; vm_compute; reflexivity. Qed.

(** ** Listing calls of a report *)

Lemma fetches_ret {A} (a : A) : fetches 0 (ret a).
Proof. split; [now exists a | reflexivity]. Qed.

Lemma fetches_bind {A B} (k j : nat) (m : M A) (f : A -> M B) :
  fetches k m -> (forall a, fetches j (f a)) -> fetches (k + j) (bind m f).
Proof.
  intros [[a Ha] Hk] Hf. destruct (Hf a) as [[b Hb] Hj].
  rewrite (bind_run _ _ _ Ha). split.
  - now exists b.
  - simpl. now rewrite listing_calls_app, Hk, Hj.
Qed.

Lemma fetches_eq {A} (k j : nat) (m : M A) : fetches k m -> k = j -> fetches j m.
Proof. now intros H <-. Qed.

Lemma fetches_download (store : Storage) (path : string) :
  fetches 0 (download_image_from_storage store path).
Proof.
  rewrite download_run. split; [now eexists|].
  apply download_calls_no_listing.
Qed.

Lemma fetches_try_image_url (store : Storage) (url : string) :
  fetches 0 (try_except (try_image_url store url) (ret None)).
Proof.
  assert (H : fetches 0 (try_image_url store url)).
  { unfold try_image_url.
    apply (fetches_bind 0 0); [apply fetches_download|].
    intros [stream|]; [apply fetches_ret|].
    destruct (negb _); [apply fetches_download | apply fetches_ret]. }
  destruct H as [[a Ha] Hk].
  rewrite (try_except_returned _ _ _ Ha). split; [now exists a | assumption].
Qed.

Lemma fetches_try_listed (store : Storage) (pattern : string) (blobs : list string) :
  fetches 0 (try_listed store pattern blobs).
Proof.
  induction blobs as [|b blobs IH]; simpl; [apply fetches_ret|].
  destruct (project_match pattern b); [|assumption].
  apply (fetches_bind 0 0); [apply fetches_download|].
  intros [stream|]; [apply fetches_ret | assumption].
Qed.

Lemma fetches_try_patterns (store : Storage) (listing patterns : list string) :
  listed store "projects/" = Returned listing ->
  fetches 0 (try_patterns store patterns).
Proof.
  intros Hlisting. induction patterns as [|p patterns IH]; simpl;
    [apply fetches_ret|].
  apply (fetches_bind 0 0).
  - unfold try_pattern. destruct (PyStr.contains_char "*" p).
    + apply (fetches_bind 0 0).
      * split; [exists listing; exact Hlisting | reflexivity].
      * intros blobs. apply fetches_try_listed.
    + apply fetches_download.
  - intros [stream|]; [apply fetches_ret | assumption].
Qed.

Lemma fetches_get_project_image
      (store : Storage) (listing : list string) (project_data : Project) :
  listed store "projects/" = Returned listing ->
  fetches 0 (get_project_image store project_data).
Proof.
  intros Hlisting. unfold get_project_image.
  apply (fetches_bind 0 0).
  - destruct (imageUrl project_data) as [url|]; [|apply fetches_ret].
    destruct (PyStr.truthy url); [apply fetches_try_image_url | apply fetches_ret].
  - intros [stream|]; [apply fetches_ret|].
    apply (fetches_bind 0 0); [now apply (fetches_try_patterns store listing)|].
    intros [stream|]; [apply fetches_ret | apply fetches_download].
Qed.

(** Each resolution of a name that passes the guard fetches the listing. *)
Lemma fetches_get_student_image_path
      (store : Storage) (listing : list string) (student_name : string) :
  listed store "students/" = Returned listing ->
  fetches (if PyStr.truthy student_name then 1 else 0)
          (get_student_image_path store (Some student_name)).
Proof.
  intros Hlisting. unfold get_student_image_path.
  destruct (PyStr.truthy student_name); cbn [negb]; [|apply fetches_ret].
  apply (fetches_bind 1 0).
  - split; [exists listing; exact Hlisting | reflexivity].
  - intros blobs. apply fetches_ret.
Qed.

Lemma fetches_team_photos
      (store : Storage) (listing : list string) (students_data : list Student) :
  listed store "students/" = Returned listing ->
  fetches (List.length (filter named students_data))
          (team_photos store students_data).
Proof.
  intros Hlisting.
  induction students_data as [|student rest IH]; [apply fetches_ret|].
  cbn [team_photos filter].
  eapply fetches_eq.
  - apply fetches_bind;
      [now apply (fetches_get_student_image_path store listing)|].
    intros image_path. apply (fetches_bind 0).
    + destruct image_path as [path|]; [|apply fetches_ret].
      destruct (PyStr.truthy path); [apply fetches_download | apply fetches_ret].
    + intros image_stream. apply fetches_bind; [exact IH|].
      intros cells. apply fetches_ret.
  - unfold named at 2. destruct (PyStr.truthy _); simpl; lia.
Qed.

(** C2 (as the code has it): the listing of [students/] is fetched by every
    resolution of a student's image, not once per batch: when the listings
    are available, a report generation returns and has fetched the
    [students/] listing once for each student whose name passes the
    resolver's guard. *)
Theorem students_listing_fetched_per_student
        (store : Storage) (students_listing projects_listing : list string)
        (projects_data : list Project) :
  listed store "students/" = Returned students_listing ->
  listed store "projects/" = Returned projects_listing ->
  (exists document,
      result (create_professional_docx store projects_data) = Returned document)
  /\ listing_calls "students/" (trace (create_professional_docx store projects_data))
     = named_students projects_data.
Proof.
  intros Hstudents Hprojects.
  change (fetches (named_students projects_data)
                  (create_professional_docx store projects_data)).
  induction projects_data as [|project_data rest IH]; [apply fetches_ret|].
  cbn [create_professional_docx].
  eapply fetches_eq.
  - apply (fetches_bind 0);
      [now apply (fetches_get_project_image store projects_listing)|].
    intros image_stream. apply fetches_bind;
      [now apply (fetches_team_photos store students_listing)|].
    intros cells. apply fetches_bind; [exact IH|].
    intros sections. apply fetches_ret.
  - unfold named_students. simpl. lia.
Qed.

Lemma students_listing_fetched_per_student_sample :
  listing_calls "students/"
    (trace (create_professional_docx
              (bucket_of [("students/ali_khan.jpg", [x2a])])
              [ {| id := Some "p1"; title := Some "Robotics"; imageUrl := None;
                   students :=
                     [ {| name := Some "Ali Khan"; email := None; role := None |};
                       {| name := Some ""; email := None; role := None |};
                       {| name := None; email := None; role := None |} ] |} ]))
  = 2.
Proof.
  apply (students_listing_fetched_per_student
           (bucket_of [("students/ali_khan.jpg", [x2a])])
           ["students/ali_khan.jpg"] []
           [ {| id := Some "p1"; title := Some "Robotics"; imageUrl := None;
                students :=
                  [ {| name := Some "Ali Khan"; email := None; role := None |};
                    {| name := Some ""; email := None; role := None |};
                    {| name := None; email := None; role := None |} ] |} ]
           eq_refl eq_refl).
Defined.

(** C2, the claim refuted: one report over a project of fifty students
    fetches the [students/] listing fifty times. *)
Lemma fifty_students_fifty_listings :
  List.length
    (students {| id := Some "p1"; title := Some "Robotics"; imageUrl := None;
                 students := repeat {| name := Some "Ali Khan"; email := None;
                                       role := None |} 50 |}) = 50
  /\ listing_calls "students/"
       (trace (create_professional_docx
                 (bucket_of [("students/ali_khan.jpg", [x2a])])
                 [ {| id := Some "p1"; title := Some "Robotics"; imageUrl := None;
                      students := repeat {| name := Some "Ali Khan"; email := None;
                                            role := None |} 50 |} ]))
     = 50.
Proof. split; vm_compute; reflexivity. Qed.

(** ** Image scaling *)

Section ScalingProperties.

Import Scaling.
Local Open Scope Q_scope.

Lemma greater_false (a b : Q) : greater a b = false <-> a <= b.
Proof.
  cbn [greater Arith_Q]. rewrite negb_false_iff. apply Qle_bool_iff.
Qed.

Lemma greater_true (a b : Q) : greater a b = true <-> b < a.
Proof.
  cbn [greater Arith_Q]. rewrite negb_true_iff.
  rewrite <- not_true_iff_false, Qle_bool_iff. split; [apply Qnot_le_lt | apply Qlt_not_le].
Qed.

Lemma divide_nonzero (a b : Q) : ~ b == 0 -> divide a b = Some (a / b).
Proof.
  intros H. cbn [divide Arith_Q].
  destruct (Qeq_bool b 0) eqn:E; [|reflexivity].
  apply Qeq_bool_iff in E. contradiction.
Qed.


Lemma min2_le_l (a b : Q) : min2 a b <= a.
Proof.
  unfold min2. destruct (greater a b) eqn:E.
  - apply greater_true in E. now apply Qlt_le_weak.
  - apply Qle_refl.
Qed.

Lemma min2_pos (a b : Q) : 0 < a -> 0 < b -> 0 < min2 a b.
Proof. intros Ha Hb. unfold min2. now destruct (greater a b). Qed.


Lemma Qdiv_mult_cancel (x a : Q) : ~ a == 0 -> x / a * a == x.
Proof. intros H. field. exact H. Qed.

Lemma scaled_finish (a max_width max_height new_width new_height : Q) :
  0 < a ->
  new_width == new_height * a ->
  new_width <= max_width \/ new_height <= max_height ->
  exists w h,
    and_then
      (if greater new_width max_width
       then and_then (divide max_width a) (fun new_height' => Some (max_width, new_height'))
       else Some (new_width, new_height))
      (fun '(new_width1, new_height1) =>
         if greater new_height1 max_height
         then Some (times max_height a, max_height)
         else Some (new_width1, new_height1))
    = Some (w, h)
    /\ w <= max_width /\ h <= max_height /\ w == h * a
    /\ (0 < max_width -> 0 < max_height -> 0 < new_height -> 0 < w /\ 0 < h).
Proof.
  intros Ha Haspect Hone.
  assert (Hane : ~ a == 0) by (intros E; rewrite E in Ha; discriminate).
  destruct (greater new_width max_width) eqn:E2.
  - apply greater_true in E2.
    rewrite (divide_nonzero _ _ Hane). cbn [and_then].
    assert (Hlt : max_width / a < new_height).
    { apply Qlt_shift_div_r; [assumption|]. now rewrite <- Haspect. }
    assert (Hle : max_width / a <= max_height).
    { destruct Hone as [H | H].
      - exfalso. apply (Qlt_not_le _ _ E2 H).
      - apply Qlt_le_weak. now apply (Qlt_le_trans _ new_height). }
    apply greater_false in Hle. rewrite Hle.
    apply greater_false in Hle.
    exists max_width, (max_width / a).
    split; [reflexivity|]. split; [apply Qle_refl|]. split; [assumption|].
    split; [now rewrite Qdiv_mult_cancel|].
    intros Hmw _ _. split; [assumption|].
    apply Qlt_shift_div_l; [assumption | now rewrite Qmult_0_l].
  - apply greater_false in E2. cbn [and_then].
    destruct (greater new_height max_height) eqn:E3.
    + apply greater_true in E3. cbn [times Arith_Q].
      exists (max_height * a), max_height.
      split; [reflexivity|]. split; [|split; [apply Qle_refl|split; [reflexivity|]]].
      * apply Qlt_le_weak. apply (Qlt_le_trans _ new_width); [|assumption].
        rewrite Haspect. now apply Qmult_lt_compat_r.
      * intros _ Hmh _. split; [|assumption].
        rewrite <- (Qmult_0_l a). now apply Qmult_lt_compat_r.
    + apply greater_false in E3.
      exists new_width, new_height.
      split; [reflexivity|]. split; [assumption|]. split; [assumption|].
      split; [assumption|].
      intros _ _ Hnh. split; [|assumption].
      rewrite Haspect, <- (Qmult_0_l a). now apply Qmult_lt_compat_r.
Qed.

Lemma scaled_Q (width height : Z) (max_width max_height : Q) :
  (0 < width)%Z -> (0 < height)%Z ->
  exists new_width new_height,
    scaled width height max_width max_height = Some (new_width, new_height)
    /\ new_width <= max_width /\ new_height <= max_height
    /\ new_width * inject_Z height == new_height * inject_Z width
    /\ (0 < max_width -> 0 < max_height -> 0 < new_width /\ 0 < new_height).
Proof.
  intros Hw Hh.
  assert (Hw' : 0 < inject_Z width) by (unfold Qlt; simpl; lia).
  assert (Hh' : 0 < inject_Z height) by (unfold Qlt; simpl; lia).
  set (a := inject_Z width / inject_Z height).
  assert (Ha : 0 < a) by (apply Qlt_shift_div_l; [assumption | now rewrite Qmult_0_l]).
  assert (Hane : ~ a == 0) by (intros E; rewrite E in Ha; discriminate).
  assert (Hhne : ~ inject_Z height == 0) by (intros E; rewrite E in Hh'; discriminate).
  assert (H100 : forall x, divide x (inject_Z 100) = Some (x / inject_Z 100))
    by (intros x; apply divide_nonzero; discriminate).
  assert (Hfirst : exists nw nh,
             (if (width >? height)%Z
              then
                and_then (divide (inject_Z width) (inject_Z 100)) (fun w =>
                and_then (divide (min2 max_width w) a) (fun new_height =>
                Some (min2 max_width w, new_height)))
              else
                and_then (divide (inject_Z height) (inject_Z 100)) (fun h =>
                Some (times (min2 max_height h) a, min2 max_height h)))
             = Some (nw, nh)
             /\ nw == nh * a
             /\ (nw <= max_width \/ nh <= max_height)
             /\ (0 < max_width -> 0 < max_height -> 0 < nh)).
  { destruct (width >? height)%Z.
    - rewrite H100. cbn [and_then]. rewrite (divide_nonzero _ _ Hane). cbn [and_then].
      eexists _, _. split; [reflexivity|]. split; [|split].
      + now rewrite Qdiv_mult_cancel.
      + left. apply min2_le_l.
      + intros Hmw _. apply Qlt_shift_div_l; [assumption|]. rewrite Qmult_0_l.
        apply min2_pos; [assumption|].
        apply Qlt_shift_div_l; [reflexivity | now rewrite Qmult_0_l].
    - rewrite H100. cbn [and_then times Arith_Q].
      eexists _, _. split; [reflexivity|]. split; [|split].
      + reflexivity.
      + right. apply min2_le_l.
      + intros _ Hmh. apply min2_pos; [assumption|].
        apply Qlt_shift_div_l; [reflexivity | now rewrite Qmult_0_l]. }
  destruct Hfirst as (nw & nh & Efirst & Haspect & Hone & Hpos).
  destruct (scaled_finish a max_width max_height nw nh Ha Haspect Hone)
    as (w & h & Efinish & Hwle & Hhle & Hasp & Hpos').
  exists w, h. split; [|split; [|split; [|split]]]; try assumption.
  - unfold scaled. cbn [of_int Arith_Q].
    rewrite (divide_nonzero _ _ Hhne). fold a. cbn [and_then].
    rewrite Efirst. cbn [and_then]. exact Efinish.
  - rewrite Hasp. unfold a. field. exact Hhne.
  - intros Hmw Hmh. apply Hpos'; try assumption. now apply Hpos.
Qed.



(** C9: the scaling is a function of the pixel size and the box alone.  For
    2000 by 1000 pixels in a box of 4 by 3 inches it gives 4 by 2 inches,
    for 1000 by 2000 pixels 1.5 by 3 inches, in exact arithmetic and in
    binary64 floats alike, and [Inches] turns them into 3657600 by 1828800
    and 1371600 by 2743200 EMU; for every image of positive size the
    rendered width and height are in the proportion of the pixel width and
    height. *)
Theorem resize_image_for_docx_aspect :
  ((exists w h, scaled 2000 1000 4 3 = Some (w, h) /\ w == 4 /\ h == 2)
   /\ (exists w h, scaled 1000 2000 4 3 = Some (w, h) /\ w == 3 # 2 /\ h == 3)
   /\ resize_image_for_docx (Returned (2000, 1000)%Z) 4 3 = (3657600, 1828800)%Z
   /\ resize_image_for_docx (Returned (1000, 2000)%Z) 4 3 = (1371600, 2743200)%Z
   /\ (Inches 4, Inches 2) = (Some 3657600%Z, Some 1828800%Z)
   /\ (Inches (3 # 2), Inches 3) = (Some 1371600%Z, Some 2743200%Z))
  /\ (scaled 2000 1000 (float_of_int 4) (float_of_int 3)
      = Some (float_of_int 4, float_of_int 2)
      /\ scaled 1000 2000 (float_of_int 4) (float_of_int 3)
         = Some (PrimFloat.div (float_of_int 3) (float_of_int 2), float_of_int 3)
      /\ resize_image_for_docx (Returned (2000, 1000)%Z)
           (float_of_int 4) (float_of_int 3) = (3657600, 1828800)%Z
      /\ resize_image_for_docx (Returned (1000, 2000)%Z)
           (float_of_int 4) (float_of_int 3) = (1371600, 2743200)%Z)
  /\ (forall (width height : Z) (max_width max_height : Q),
        (0 < width)%Z -> (0 < height)%Z ->
        exists w h,
          scaled width height max_width max_height = Some (w, h)
          /\ w * inject_Z height == h * inject_Z width).
Proof.
  split; [|split].
  - split; [eexists _, _; split; [vm_compute; reflexivity | split; reflexivity]|].
    split; [eexists _, _; split; [vm_compute; reflexivity | split; reflexivity]|].
    repeat split; vm_compute; reflexivity.
  - repeat split; vm_compute; reflexivity.
  - intros width height max_width max_height Hw Hh.
    destruct (scaled_Q width height max_width max_height Hw Hh)
      as (w & h & E & _ & _ & Haspect & _).
    now exists w, h.
Qed.

Lemma resize_image_for_docx_aspect_sample :
  exists w h,
    scaled 1920 1080 (3 # 2) (3 # 2) = Some (w, h)
    /\ w * inject_Z 1080 == h * inject_Z 1920.
Proof.
  apply (proj2 (proj2 resize_image_for_docx_aspect) 1920%Z 1080%Z (3 # 2) (3 # 2));
    reflexivity.
Defined.


(** On binary64 floats the bound is checked by evaluation for the two boxes
    the document builder uses, 4 by 3 and 1.5 by 1.5 inches, on every size
    up to 128 by 128 pixels. *)
Example scaled_binary64_within_box :
  forallb (within_box (float_of_int 4) (float_of_int 3)) (sizes 128) = true
  /\ forallb (within_box (PrimFloat.div (float_of_int 3) (float_of_int 2))
                         (PrimFloat.div (float_of_int 3) (float_of_int 2)))
             (sizes 128) = true.
Proof. split; vm_compute; reflexivity. Qed.


End ScalingProperties.

(** * Further properties *)

Lemma glob_match_nil (s : string) :
  Fnmatch.glob_match [] s = true <-> s = EmptyString.
Proof. destruct s; simpl; split; intros H; try reflexivity; discriminate. Qed.

Lemma glob_match_star_unfold (items : list Fnmatch.item) (s : string) :
  Fnmatch.glob_match (Fnmatch.Star :: items) s
  = Fnmatch.glob_match items s
    || match s with
       | EmptyString => false
       | String _ s' => Fnmatch.glob_match (Fnmatch.Star :: items) s'
       end.
Proof. destruct s; reflexivity. Qed.

Lemma glob_match_star (items : list Fnmatch.item) (s : string) :
  Fnmatch.glob_match (Fnmatch.Star :: items) s = true <->
  exists a b, s = (a ++ b)%string /\ Fnmatch.glob_match items b = true.
Proof.
  induction s as [|c s IH].
  - rewrite glob_match_star_unfold, orb_false_r. split.
    + intros H. now exists EmptyString, EmptyString.
    + intros (a & b & E & H). destruct a; [|discriminate].
      simpl in E. now subst b.
  - rewrite glob_match_star_unfold, orb_true_iff, IH. split.
    + intros [H | (a & b & E & H)].
      * now exists EmptyString, (String c s).
      * exists (String c a), b. simpl. now rewrite E.
    + intros (a & b & E & H). destruct a as [|d a].
      * left. simpl in E. now subst b.
      * right. simpl in E. injection E as -> ->. now exists a, b.
Qed.

Lemma glob_match_literal (lit : string) (items : list Fnmatch.item) (s : string) :
  Fnmatch.glob_match (literal_items lit ++ items) s = true <->
  exists rest, s = (lit ++ rest)%string /\ Fnmatch.glob_match items rest = true.
Proof.
  revert s. induction lit as [|c lit IH]; intros s.
  - simpl. split; [intros H; now exists s | intros (rest & -> & H); exact H].
  - cbn [literal_items app Fnmatch.glob_match]. destruct s as [|d s].
    + split; [discriminate | intros (rest & E & _); discriminate].
    + cbn [Fnmatch.item_ok]. rewrite andb_true_iff, IH, Ascii.eqb_eq. split.
      * intros [-> (rest & -> & H)]. now exists rest.
      * intros (rest & E & H). simpl in E. injection E as -> ->.
        split; [reflexivity | now exists rest].
Qed.

Lemma translate_plain (lit rest : string) :
  plain lit = true ->
  Fnmatch.translate_aux 0 (lit ++ rest)
  = literal_items lit ++ Fnmatch.translate_aux 0 rest.
Proof.
  induction lit as [|c lit IH]; intros H; [reflexivity|].
  cbn [plain] in H. rewrite !andb_true_iff, !negb_true_iff in H.
  destruct H as [[[H1 H2] H3] H4].
  cbn [append Fnmatch.translate_aux literal_items app].
  rewrite H1, H2, H3. now rewrite IH.
Qed.

(** A pattern [*text*] with a plain text matches the names that contain the
    text. *)
Lemma fnmatch_contains (lit name : string) :
  plain lit = true ->
  Fnmatch.fnmatch name ("*" ++ lit ++ "*") = true <->
  exists a b, name = (a ++ lit ++ b)%string.
Proof.
  intros Hplain. unfold Fnmatch.fnmatch, Fnmatch.translate.
  change (Fnmatch.translate_aux 0 ("*" ++ lit ++ "*"))
    with (Fnmatch.Star :: Fnmatch.translate_aux 0 (lit ++ "*")).
  rewrite (translate_plain _ _ Hplain).
  change (Fnmatch.translate_aux 0 "*") with [Fnmatch.Star].
  rewrite glob_match_star. split.
  - intros (a & b & -> & H). apply glob_match_literal in H.
    destruct H as (rest & -> & _). now exists a, rest.
  - intros (a & b & ->). exists a, (lit ++ b)%string. split; [reflexivity|].
    apply glob_match_literal. exists b. split; [reflexivity|].
    apply glob_match_star. exists b, EmptyString. split; [|reflexivity].
    clear. induction b; simpl; [reflexivity | now rewrite <- IHb].
Qed.

Lemma filename_char_plain (c : ascii) :
  filename_char c = true ->
  negb (Ascii.eqb c "*") && negb (Ascii.eqb c "?") && negb (Ascii.eqb c "[") = true.
Proof. destruct c as [[] [] [] [] [] [] [] []]; simpl; intros H; try reflexivity; discriminate. Qed.

Lemma is_lower_filename_char (c : ascii) :
  PyStr.is_lower c = true -> filename_char c = true.
Proof. unfold filename_char. now intros ->. Qed.

Lemma all_chars_keep (test : ascii -> bool) (s : string) :
  all_chars test (PyStr.keep_chars test s) = true.
Proof.
  induction s as [|c s IH]; simpl; [reflexivity|].
  destruct (test c) eqn:E; simpl; [now rewrite E | assumption].
Qed.

Lemma all_chars_weaken (p q : ascii -> bool) (s : string) :
  (forall c, p c = true -> q c = true) ->
  all_chars p s = true -> all_chars q s = true.
Proof.
  intros Hpq. induction s as [|c s IH]; simpl; [reflexivity|].
  rewrite !andb_true_iff. intros [H1 H2]. split; [now apply Hpq | now apply IH].
Qed.

Lemma all_chars_take (test : ascii -> bool) (n : nat) (s : string) :
  all_chars test s = true -> all_chars test (PyStr.take n s) = true.
Proof.
  revert s. induction n as [|n IH]; intros s; [reflexivity|].
  destruct s as [|c s]; simpl; [reflexivity|].
  rewrite !andb_true_iff. intros [H1 H2]. split; [assumption | now apply IH].
Qed.

Lemma all_chars_plain (s : string) :
  all_chars filename_char s = true -> plain s = true.
Proof.
  induction s as [|c s IH]; simpl; [reflexivity|].
  rewrite andb_true_iff. intros [H1 H2].
  rewrite (filename_char_plain c H1). now apply IH.
Qed.

Lemma keep_lower_plain (s : string) : plain (PyStr.keep_chars PyStr.is_lower s) = true.
Proof.
  apply all_chars_plain.
  apply (all_chars_weaken PyStr.is_lower); [exact is_lower_filename_char|].
  apply all_chars_keep.
Qed.

Lemma find_first_match_some (patterns blobs : list string) (blob : string) :
  find_first_match patterns blobs = Some blob ->
  In blob blobs
  /\ exists p, In p patterns /\ student_match p blob = true.
Proof.
  induction patterns as [|q patterns IH]; simpl; [discriminate|].
  destruct (first_blob q blobs) as [b|] eqn:E.
  - intros [= <-]. destruct (first_blob_some _ _ _ E) as [Hin Hm].
    split; [assumption|]. exists q. split; [now left | assumption].
  - intros H. destruct (IH H) as [Hin (p & Hp & Hm)].
    split; [assumption|]. exists p. split; [now right | assumption].
Qed.

Lemma get_student_image_path_run (store : Storage) (listing : list string)
      (student_name : string) :
  listed store "students/" = Returned listing ->
  PyStr.truthy student_name = true ->
  get_student_image_path store (Some student_name)
  = (Returned (find_first_match (student_patterns student_name) listing),
     [ListBlobs "students/"]).
Proof.
  intros Hlisting Htruthy. unfold get_student_image_path.
  rewrite Htruthy. cbn [negb].
  now rewrite (bind_run (list_blobs store "students/") _ listing Hlisting).
Qed.

(** X1: the student resolver is sound and complete for its patterns: when
    the listing is available and the name is not empty it returns, and a blob
    it returns is a listed blob that one of the student's candidate patterns
    matches; it returns no blob exactly when no candidate pattern matches any
    listed blob. *)
Theorem get_student_image_path_sound_complete
        (store : Storage) (listing : list string) (student_name : string) :
  listed store "students/" = Returned listing ->
  PyStr.truthy student_name = true ->
  exists found,
    result (get_student_image_path store (Some student_name)) = Returned found
    /\ (forall blob, found = Some blob ->
          In blob listing
          /\ exists p, In p (student_patterns student_name)
                       /\ student_match p blob = true)
    /\ (found = None <->
        forall p blob, In p (student_patterns student_name) -> In blob listing ->
                       student_match p blob = false).
Proof.
  intros Hlisting Htruthy.
  exists (find_first_match (student_patterns student_name) listing).
  split; [now rewrite (get_student_image_path_run _ _ _ Hlisting Htruthy)|].
  split; [intros blob; apply find_first_match_some | apply find_first_match_none].
Qed.

Lemma get_student_image_path_sound_complete_sample :
  exists found,
    result (get_student_image_path
              (bucket_of [("students/zara.png", []); ("students/ali_khan.jpg", [])])
              (Some "Ali Khan")) = Returned found
    /\ (forall blob, found = Some blob ->
          In blob ["students/zara.png"; "students/ali_khan.jpg"]
          /\ exists p, In p (student_patterns "Ali Khan")
                       /\ student_match p blob = true)
    /\ (found = None <->
        forall p blob, In p (student_patterns "Ali Khan") ->
                       In blob ["students/zara.png"; "students/ali_khan.jpg"] ->
                       student_match p blob = false).
Proof.
  apply (get_student_image_path_sound_complete
           (bucket_of [("students/zara.png", []); ("students/ali_khan.jpg", [])])
           ["students/zara.png"; "students/ali_khan.jpg"] "Ali Khan");
    reflexivity.
Defined.

(** X2: a candidate [*text*] whose text holds none of [*], [?] and [[] is a
    containment test: it matches a blob exactly when the lower-cased last
    path segment of the blob's name contains the text. *)
Theorem student_match_contains (lit blob_name : string) :
  plain lit = true ->
  student_match ("*" ++ lit ++ "*") blob_name = true <->
  exists a b, PyStr.lower (base_filename blob_name) = (a ++ lit ++ b)%string.
Proof.
  intros Hplain. unfold student_match.
  rewrite blob_filename_base. now apply fnmatch_contains.
Qed.

Lemma student_match_contains_sample :
  student_match ("*" ++ "ali_khan" ++ "*") "students/2024/Ali_Khan_photo.JPG" = true.
Proof.
  apply (student_match_contains "ali_khan" "students/2024/Ali_Khan_photo.JPG" eq_refl).
  now exists EmptyString, "_photo.jpg".
Defined.

Lemma first_letters_pattern_in (student_name : string) :
  In ("*" ++ PyStr.keep_chars PyStr.is_lower (first_name_of student_name) ++ "*")%string
     (student_patterns student_name).
Proof.
  unfold student_patterns. apply filter_In. split; [|reflexivity].
  unfold pattern_templates, first_name_of. cbv zeta.
  do 6 right. now left.
Qed.

(** X3: when some listed blob's lower-cased base filename contains the
    letters a-z of the student's lower-cased first name, the resolver returns
    a blob (whatever the rest of the name is). *)
Theorem get_student_image_path_first_name
        (store : Storage) (listing : list string) (student_name blob a b : string) :
  listed store "students/" = Returned listing ->
  PyStr.truthy student_name = true ->
  In blob listing ->
  PyStr.lower (base_filename blob)
  = (a ++ PyStr.keep_chars PyStr.is_lower (first_name_of student_name) ++ b)%string ->
  exists found,
    result (get_student_image_path store (Some student_name))
    = Returned (Some found).
Proof.
  intros Hlisting Htruthy Hin Hname.
  rewrite (get_student_image_path_run _ _ _ Hlisting Htruthy).
  unfold result. cbn [fst].
  destruct (find_first_match (student_patterns student_name) listing)
    as [found|] eqn:E; [now exists found|].
  exfalso.
  pose proof (proj1 (find_first_match_none _ _) E _ _
                    (first_letters_pattern_in student_name) Hin) as Hno.
  assert (Hyes : student_match
                   ("*" ++ PyStr.keep_chars PyStr.is_lower (first_name_of student_name) ++ "*")
                   blob = true).
  { unfold student_match. rewrite blob_filename_base.
    apply fnmatch_contains; [apply keep_lower_plain | now exists a, b]. }
  congruence.
Qed.

Lemma get_student_image_path_first_name_sample :
  exists found,
    result (get_student_image_path
              (bucket_of [("students/ali_raza.jpg", [])]) (Some "Ali Khan"))
    = Returned (Some found).
Proof.
  apply (get_student_image_path_first_name
           (bucket_of [("students/ali_raza.jpg", [])])
           ["students/ali_raza.jpg"] "Ali Khan" "students/ali_raza.jpg"
           "" "_raza.jpg"); try reflexivity.
  now left.
Defined.

Lemma clean_filename_chars (x : option string) :
  all_chars filename_char (clean_filename x) = true.
Proof.
  destruct x as [[|c s]|]; try reflexivity.
  unfold clean_filename. cbn [PyStr.truthy negb]. apply all_chars_keep.
Qed.

Lemma title_text_plain (x : option string) :
  plain (PyStr.take 10 (clean_filename x)) = true.
Proof. apply all_chars_plain, all_chars_take, clean_filename_chars. Qed.

Lemma translate_plain_only (lit : string) :
  plain lit = true -> Fnmatch.translate_aux 0 lit = literal_items lit.
Proof.
  induction lit as [|c lit IH]; intros H; [reflexivity|].
  cbn [plain] in H. rewrite !andb_true_iff, !negb_true_iff in H.
  destruct H as [[[H1 H2] H3] H4].
  cbn [Fnmatch.translate_aux literal_items].
  rewrite H1, H2, H3. now rewrite IH.
Qed.

Lemma append_empty (s : string) : (s ++ "")%string = s.
Proof. induction s; simpl; [reflexivity | now f_equal]. Qed.

Lemma project_wildcard_match (t ext blob : string) :
  plain t = true -> plain ext = true ->
  project_match ("projects/*" ++ t ++ "*" ++ ext) blob = true <->
  exists a b, blob = ("projects/" ++ a ++ t ++ b ++ ext)%string.
Proof.
  intros Ht Hext. unfold project_match, Fnmatch.fnmatch, Fnmatch.translate.
  change (Fnmatch.translate_aux 0 ("projects/*" ++ t ++ "*" ++ ext))
    with (literal_items "projects/"
          ++ Fnmatch.Star :: Fnmatch.translate_aux 0 (t ++ "*" ++ ext)).
  rewrite (translate_plain _ _ Ht).
  change (Fnmatch.translate_aux 0 ("*" ++ ext))
    with (Fnmatch.Star :: Fnmatch.translate_aux 0 ext).
  rewrite (translate_plain_only _ Hext).
  rewrite glob_match_literal. split.
  - intros (r1 & -> & H). apply glob_match_star in H.
    destruct H as (a & r2 & -> & H). apply glob_match_literal in H.
    destruct H as (r3 & -> & H). apply glob_match_star in H.
    destruct H as (b & r4 & -> & H).
    rewrite <- (app_nil_r (literal_items ext)) in H.
    apply glob_match_literal in H.
    destruct H as (r5 & -> & H). apply glob_match_nil in H. subst r5.
    exists a, b. now rewrite append_empty.
  - intros (a & b & ->). exists (a ++ t ++ b ++ ext)%string. split; [reflexivity|].
    apply glob_match_star. exists a, (t ++ b ++ ext)%string. split; [reflexivity|].
    apply glob_match_literal. exists (b ++ ext)%string. split; [reflexivity|].
    apply glob_match_star. exists b, ext. split; [reflexivity|].
    rewrite <- (app_nil_r (literal_items ext)).
    apply glob_match_literal. exists EmptyString. split; [|reflexivity].
    now rewrite append_empty.
Qed.

(** X4: the two wildcard candidates of a project are built from the first
    ten characters of the cleaned title, and each matches exactly the blobs
    whose full name is [projects/], anything, that text, anything, and the
    extension: the cleaned title cannot bring in a glob operator. *)
Theorem project_title_wildcard (project_data : Project) (blob : string) :
  let t := PyStr.take 10 (clean_filename (Some (get_or (title project_data) "unknown"))) in
  In ("projects/*" ++ t ++ "*.jpg")%string (candidates project_data)
  /\ In ("projects/*" ++ t ++ "*.png")%string (candidates project_data)
  /\ (project_match ("projects/*" ++ t ++ "*.jpg") blob = true <->
      exists a b, blob = ("projects/" ++ a ++ t ++ b ++ ".jpg")%string)
  /\ (project_match ("projects/*" ++ t ++ "*.png") blob = true <->
      exists a b, blob = ("projects/" ++ a ++ t ++ b ++ ".png")%string).
Proof.
  intros t.
  split; [unfold candidates, project_patterns; do 8 right; now left|].
  split; [unfold candidates, project_patterns; do 9 right; now left|].
  split.
  - apply (project_wildcard_match t ".jpg" blob); [apply title_text_plain | reflexivity].
  - apply (project_wildcard_match t ".png" blob); [apply title_text_plain | reflexivity].
Qed.

Lemma keep_chars_none (test : ascii -> bool) (s : string) :
  all_chars (fun c => negb (test c)) s = true -> PyStr.keep_chars test s = EmptyString.
Proof.
  induction s as [|c s IH]; simpl; [reflexivity|].
  rewrite andb_true_iff, negb_true_iff. intros [-> H]. now apply IH.
Qed.

(** X5: a non-empty title without any character of [[a-zA-Z0-9_.-]] is
    cleaned to the empty string, not to the token "unknown", and its wildcard
    candidates match every [.jpg] and every [.png] under [projects/]. *)
Theorem title_without_filename_chars (project_title name : string) :
  PyStr.truthy project_title = true ->
  all_chars (fun c => negb (filename_char c)) project_title = true ->
  clean_filename (Some project_title) = EmptyString
  /\ project_match
       ("projects/*" ++ PyStr.take 10 (clean_filename (Some project_title)) ++ "*.jpg")
       ("projects/" ++ name ++ ".jpg") = true
  /\ project_match
       ("projects/*" ++ PyStr.take 10 (clean_filename (Some project_title)) ++ "*.png")
       ("projects/" ++ name ++ ".png") = true.
Proof.
  intros Htruthy Hnone.
  assert (E : clean_filename (Some project_title) = EmptyString).
  { unfold clean_filename. rewrite Htruthy. cbn [negb]. now apply keep_chars_none. }
  split; [exact E|]. rewrite E. cbn [PyStr.take].
  split.
  - apply (project_wildcard_match "" ".jpg"); try reflexivity.
    now exists name, EmptyString.
  - apply (project_wildcard_match "" ".png"); try reflexivity.
    now exists name, EmptyString.
Qed.

Lemma title_without_filename_chars_sample :
  clean_filename (Some "(!) @ #") = EmptyString
  /\ project_match
       ("projects/*" ++ PyStr.take 10 (clean_filename (Some "(!) @ #")) ++ "*.jpg")
       ("projects/" ++ "someone_else" ++ ".jpg") = true
  /\ project_match
       ("projects/*" ++ PyStr.take 10 (clean_filename (Some "(!) @ #")) ++ "*.png")
       ("projects/" ++ "someone_else" ++ ".png") = true.
Proof.
  apply (title_without_filename_chars "(!) @ #" "someone_else"); reflexivity.
Defined.

Lemma bind_returned_inv {A B} (m : M A) (f : A -> M B) (b : B) :
  result (bind m f) = Returned b ->
  exists a, result m = Returned a /\ result (f a) = Returned b.
Proof.
  destruct m as [[a|] t]; simpl.
  - intros H. exists a. split; [reflexivity|].
    unfold result in *. now destruct (f a).
  - discriminate.
Qed.

Lemma from_store_ret_none (store : Storage) : from_store store (ret None).
Proof. intros data H. discriminate. Qed.

Lemma from_store_download (store : Storage) (path : string) :
  from_store store (download_image_from_storage store path).
Proof.
  intros data H. rewrite download_run in H. simpl in H.
  exists path. congruence.
Qed.

Lemma from_store_try_image_url (store : Storage) (url : string) :
  from_store store (try_image_url store url).
Proof.
  intros data H. pose proof (try_image_url_run store url) as Hrun.
  cbv zeta in Hrun. rewrite Hrun in H.
  destruct (stored store (image_path_of url)) as [d|] eqn:E1.
  - simpl in H. exists (image_path_of url). congruence.
  - destruct (String.eqb _ _); simpl in H; [discriminate|].
    exists (Unquote.unquote (image_path_of url)). congruence.
Qed.

Lemma from_store_try_listed (store : Storage) (pattern : string) (blobs : list string) :
  from_store store (try_listed store pattern blobs).
Proof.
  induction blobs as [|b blobs IH]; simpl; [apply from_store_ret_none|].
  destruct (project_match pattern b); [|assumption].
  intros data H. apply bind_returned_inv in H.
  destruct H as ([stream|] & Hd & H).
  - apply (from_store_download store b). simpl in H. congruence.
  - now apply IH.
Qed.

Lemma from_store_try_patterns (store : Storage) (patterns : list string) :
  from_store store (try_patterns store patterns).
Proof.
  induction patterns as [|p patterns IH]; simpl; [apply from_store_ret_none|].
  intros data H. apply bind_returned_inv in H.
  destruct H as ([stream|] & Hp & H).
  - simpl in H. injection H as ->. unfold try_pattern in Hp.
    destruct (PyStr.contains_char "*" p).
    + apply bind_returned_inv in Hp. destruct Hp as (blobs & _ & Hp).
      now apply (from_store_try_listed store p blobs).
    + now apply (from_store_download store p).
  - now apply IH.
Qed.

(** X6: an image the project resolver returns is the content of a blob of
    the store: some path was reported present and its download returned
    these bytes. *)
Theorem get_project_image_from_store
        (store : Storage) (project_data : Project) (data : bytes) :
  result (get_project_image store project_data) = Returned (Some data) ->
  exists path,
    present store path = Returned true /\ content store path = Returned data.
Proof.
  intros H.
  assert (Hs : exists path, stored store path = Some data).
  { unfold get_project_image in H. apply bind_returned_inv in H.
    destruct H as ([stream|] & Hurl & H).
    - simpl in H. injection H as ->.
      destruct (imageUrl project_data) as [url|]; [|discriminate].
      destruct (PyStr.truthy url); [|discriminate].
      apply (from_store_try_image_url store url).
      destruct (try_image_url store url) as [[r|] t] eqn:E; simpl in *;
        [assumption|discriminate].
    - apply bind_returned_inv in H. destruct H as ([stream|] & Hp & H).
      + simpl in H. injection H as ->.
        now apply (from_store_try_patterns store _ _ Hp).
      + now apply (from_store_download store _ _ H). }
  destruct Hs as (path & Hs). exists path. unfold stored in Hs.
  destruct (PyStr.truthy path); [|discriminate].
  destruct (present store path) as [[|]|]; try discriminate.
  destruct (content store path); [|discriminate].
  split; congruence.
Qed.

Lemma get_project_image_from_store_sample :
  exists path,
    present (bucket_of [("projects/p1.png", [x2a])]) path = Returned true
    /\ content (bucket_of [("projects/p1.png", [x2a])]) path = Returned [x2a].
Proof.
  apply (get_project_image_from_store
           (bucket_of [("projects/p1.png", [x2a])])
           {| id := Some "p1"; title := Some "Robotics";
              imageUrl := None; students := [] |} [x2a]).
  reflexivity.
Defined.

Lemma try_image_url_returns (store : Storage) (url : string) :
  exists r, result (try_image_url store url) = Returned r.
Proof.
  pose proof (try_image_url_run store url) as Hrun. cbv zeta in Hrun.
  rewrite Hrun. destruct (stored store (image_path_of url)); [now eexists|].
  destruct (String.eqb _ _); now eexists.
Qed.

Lemma try_image_url_no_listing (store : Storage) (url prefix : string) :
  listing_calls prefix (trace (try_image_url store url)) = 0.
Proof.
  pose proof (try_image_url_run store url) as Hrun. cbv zeta in Hrun.
  rewrite Hrun. destruct (stored store (image_path_of url)).
  - apply download_calls_no_listing.
  - destruct (String.eqb _ _); simpl.
    + apply download_calls_no_listing.
    + now rewrite listing_calls_app, !download_calls_no_listing.
Qed.

Lemma url_stage_unusable (store : Storage) (project_data : Project) :
  reference_unusable store project_data ->
  result (url_stage store project_data) = Returned None
  /\ forall prefix, listing_calls prefix (trace (url_stage store project_data)) = 0.
Proof.
  intros Hurl. unfold url_stage.
  destruct (imageUrl project_data) as [url|] eqn:E; [|now split].
  destruct (PyStr.truthy url); [|now split].
  destruct (Hurl url E) as [H1 H2].
  destruct (try_image_url_returns store url) as [r Hr].
  rewrite (try_except_returned _ _ _ Hr). split.
  - pose proof (try_image_url_run store url) as Hrun. cbv zeta in Hrun.
    rewrite Hrun, H1, H2. now destruct (String.eqb _ _).
  - intros prefix. apply try_image_url_no_listing.
Qed.

Lemma get_project_image_stages (store : Storage) (project_data : Project) :
  get_project_image store project_data
  = (from_url <- url_stage store project_data ;;
     match from_url with
     | Some stream => ret (Some stream)
     | None =>
         from_patterns <- try_patterns store (candidates project_data) ;;
         match from_patterns with
         | Some stream => ret (Some stream)
         | None => download_image_from_storage store default_project_image
         end
     end).
Proof. reflexivity. Qed.

Lemma try_patterns_first_literal (store : Storage) (before : list string)
      (p : string) (after : list string) (data : bytes) :
  (forall q, In q before ->
     PyStr.contains_char "*" q = false /\ stored store q = None) ->
  PyStr.contains_char "*" p = false ->
  stored store p = Some data ->
  result (try_patterns store (before ++ p :: after)) = Returned (Some data)
  /\ forall prefix,
       listing_calls prefix (trace (try_patterns store (before ++ p :: after))) = 0.
Proof.
  intros Hbefore Hp Hdata.
  induction before as [|q before IH]; cbn [app try_patterns].
  - unfold try_pattern. rewrite Hp, download_run, bind_returned, Hdata.
    split; [reflexivity|]. intros prefix. cbn [trace snd ret].
    now rewrite listing_calls_app, download_calls_no_listing.
  - destruct (Hbefore q (or_introl eq_refl)) as [Hq Hnone].
    unfold try_pattern. rewrite Hq, download_run, bind_returned, Hnone.
    destruct IH as [IH1 IH2]; [intros r Hr; apply Hbefore; now right|].
    split; [exact IH1|]. intros prefix. cbn [trace snd].
    now rewrite listing_calls_app, download_calls_no_listing, IH2.
Qed.

(** X7: when no explicit reference can be retrieved, the first literal
    candidate that can be retrieved, the candidates before it being literal
    and not retrievable, is the result, and no listing is fetched. *)
Theorem get_project_image_first_literal
        (store : Storage) (project_data : Project)
        (before : list string) (p : string) (after : list string) (data : bytes) :
  reference_unusable store project_data ->
  candidates project_data = before ++ p :: after ->
  (forall q, In q before ->
     PyStr.contains_char "*" q = false /\ stored store q = None) ->
  PyStr.contains_char "*" p = false ->
  stored store p = Some data ->
  result (get_project_image store project_data) = Returned (Some data)
  /\ forall prefix,
       listing_calls prefix (trace (get_project_image store project_data)) = 0.
Proof.
  intros Hurl Hsplit Hbefore Hp Hdata.
  destruct (url_stage_unusable store project_data Hurl) as [Hu1 Hu2].
  destruct (try_patterns_first_literal store before p after data Hbefore Hp Hdata)
    as [Hp1 Hp2].
  rewrite get_project_image_stages, (bind_run _ _ _ Hu1), Hsplit.
  rewrite (bind_run _ _ _ Hp1). split; [reflexivity|].
  intros prefix. cbn [trace snd ret].
  now rewrite !listing_calls_app, Hu2, Hp2.
Qed.

Lemma get_project_image_first_literal_sample :
  result (get_project_image
            (bucket_of [("projects/project_p1.png", [x2a]);
                        ("projects/default_project.jpg", [x07])])
            {| id := Some "p1"; title := Some "Robotics";
               imageUrl := None; students := [] |})
  = Returned (Some [x2a])
  /\ forall prefix,
       listing_calls prefix
         (trace (get_project_image
                   (bucket_of [("projects/project_p1.png", [x2a]);
                               ("projects/default_project.jpg", [x07])])
                   {| id := Some "p1"; title := Some "Robotics";
                      imageUrl := None; students := [] |})) = 0.
Proof.
  apply (get_project_image_first_literal
           (bucket_of [("projects/project_p1.png", [x2a]);
                       ("projects/default_project.jpg", [x07])])
           {| id := Some "p1"; title := Some "Robotics";
              imageUrl := None; students := [] |}
           ["projects/p1.jpg"; "projects/p1.png"; "projects/project_p1.jpg"]
           "projects/project_p1.png"
           ["projects/Robotics.jpg"; "projects/Robotics.png";
            "projects/Robotics.jpg"; "projects/Robotics.png";
            "projects/*Robotics*.jpg"; "projects/*Robotics*.png";
            "projects/dec cap vale.png"; "projects/IOTbasedRealTimeApp.jpg";
            "projects/Scratch.png"]
           [x2a]).
  - intros url H. discriminate.
  - reflexivity.
  - intros q [<- | [<- | [<- | []]]]; split; reflexivity.
  - reflexivity.
  - reflexivity.
Defined.

Lemma try_patterns_listing_raised (store : Storage) (patterns : list string) :
  listed store "projects/" = Raised ->
  (exists p, In p patterns /\ PyStr.contains_char "*" p = true) ->
  (forall p, In p patterns -> PyStr.contains_char "*" p = false ->
             stored store p = None) ->
  result (try_patterns store patterns) = Raised.
Proof.
  intros Hlisting. induction patterns as [|q patterns IH]; intros Hex Hlit.
  - destruct Hex as (p & [] & _).
  - cbn [try_patterns]. unfold try_pattern.
    destruct (PyStr.contains_char "*" q) eqn:Eq.
    + rewrite (bind_raised (list_blobs store "projects/") _ Hlisting).
      reflexivity.
    + rewrite download_run, bind_returned, (Hlit q (or_introl eq_refl) Eq).
      cbn [result fst]. apply IH.
      * destruct Hex as (p & [<- | Hp] & Hs); [congruence | now exists p].
      * intros p Hp. apply Hlit. now right.
Qed.

(** X8: when no explicit reference and no literal candidate can be
    retrieved and the listing of [projects/] raises, the project resolver
    raises: the exception is not caught and the default asset is not tried. *)
Theorem get_project_image_listing_raises
        (store : Storage) (project_data : Project) :
  reference_unusable store project_data ->
  listed store "projects/" = Raised ->
  (forall p, In p (candidates project_data) ->
             PyStr.contains_char "*" p = false -> stored store p = None) ->
  result (get_project_image store project_data) = Raised.
Proof.
  intros Hurl Hlisting Hlit.
  destruct (url_stage_unusable store project_data Hurl) as [Hu1 _].
  rewrite get_project_image_stages, (bind_run _ _ _ Hu1).
  cbn [result fst].
  rewrite bind_raised; [reflexivity|].
  apply try_patterns_listing_raised; [assumption | | assumption].
  exists ("projects/*"
          ++ PyStr.take 10 (clean_filename (Some (get_or (title project_data) "unknown")))
          ++ "*.jpg")%string.
  split; [|reflexivity].
  unfold candidates, project_patterns. do 8 right. now left.
Qed.

Lemma get_project_image_listing_raises_sample :
  result (get_project_image
            {| listed := fun _ => Raised;
               present := fun path => Returned (String.eqb path default_project_image);
               content := fun _ => Returned [x2a] |}
            {| id := Some "p1"; title := Some "Robotics";
               imageUrl := None; students := [] |})
  = Raised.
Proof.
  apply get_project_image_listing_raises.
  - intros url H. discriminate.
  - reflexivity.
  - intros p Hp _. simpl in Hp.
    repeat (destruct Hp as [<- | Hp]; [reflexivity|]). contradiction.
Defined.

(** X9: the wildcard step returns the first listed blob that matches the
    pattern and can be retrieved; a matching blob that cannot be retrieved
    is passed over. *)
Theorem try_listed_first_retrievable
        (store : Storage) (pattern : string) (before : list string)
        (blob : string) (after : list string) (data : bytes) :
  (forall c, In c before ->
     project_match pattern c = false \/ stored store c = None) ->
  project_match pattern blob = true ->
  stored store blob = Some data ->
  result (try_listed store pattern (before ++ blob :: after)) = Returned (Some data).
Proof.
  intros Hbefore Hblob Hdata.
  induction before as [|c before IH]; cbn [app try_listed].
  - now rewrite Hblob, download_run, bind_returned, Hdata.
  - assert (IH' : result (try_listed store pattern (before ++ blob :: after))
                  = Returned (Some data))
      by (apply IH; intros d Hd; apply Hbefore; now right).
    destruct (project_match pattern c) eqn:Ec; [|exact IH'].
    destruct (Hbefore c (or_introl eq_refl)) as [H | H]; [congruence|].
    now rewrite download_run, bind_returned, H.
Qed.

Lemma try_listed_first_retrievable_sample :
  result (try_listed
            {| listed := fun _ => Returned [];
               present := fun _ => Returned true;
               content := fun path =>
                 if String.eqb path "projects/robotics_b.jpg"
                 then Returned [x2a] else Raised |}
            "projects/*robotics*.jpg"
            (["projects/cover.jpg"; "projects/robotics_a.jpg"]
               ++ "projects/robotics_b.jpg" :: ["projects/robotics_c.jpg"]))
  = Returned (Some [x2a]).
Proof.
  apply try_listed_first_retrievable.
  - intros c [<- | [<- | []]]; [left | right]; reflexivity.
  - reflexivity.
  - reflexivity.
Defined.

Lemma unquote_no_percent (s : string) :
  PyStr.contains_char "%" s = false -> Unquote.unquote s = s.
Proof.
  unfold Unquote.unquote. induction s as [|c s IH]; [reflexivity|].
  cbn [PyStr.contains_char Unquote.unquote_aux].
  rewrite orb_false_iff. intros [Hc Hs].
  rewrite Ascii.eqb_sym in Hc. rewrite Hc. now rewrite IH.
Qed.

(** X10: when the path of an explicit reference holds no percent sign after
    [%2F] and [%20] are reversed, the reference is tried once: the step is
    the download of that path and nothing else. *)
Theorem try_image_url_single_attempt (store : Storage) (url : string) :
  PyStr.contains_char "%" (image_path_of url) = false ->
  try_image_url store url
  = download_image_from_storage store (image_path_of url).
Proof.
  intros H. pose proof (try_image_url_run store url) as Hrun. cbv zeta in Hrun.
  rewrite Hrun, download_run, (unquote_no_percent _ H), String.eqb_refl.
  now destruct (stored store (image_path_of url)).
Qed.

Lemma try_image_url_single_attempt_sample :
  try_image_url (bucket_of [])
    "https://storage.example/v0/b/app/o/projects%2Fteam%20logo.jpg?alt=media"
  = download_image_from_storage (bucket_of []) "projects/team logo.jpg".
Proof.
  apply (try_image_url_single_attempt (bucket_of [])
           "https://storage.example/v0/b/app/o/projects%2Fteam%20logo.jpg?alt=media").
  reflexivity.
Defined.

Lemma contains_char_append (c : ascii) (s t : string) :
  PyStr.contains_char c (s ++ t)
  = PyStr.contains_char c s || PyStr.contains_char c t.
Proof.
  induction s as [|d s IH]; simpl; [reflexivity|].
  now rewrite IH, orb_assoc.
Qed.









Lemma team_photos_names (store : Storage) (students_data : list Student)
      (cells : list photo_cell) :
  result (team_photos store students_data) = Returned cells ->
  map cell_name cells = map label students_data.
Proof.
  revert cells. induction students_data as [|student rest IH]; intros cells H.
  - simpl in H. now injection H as <-.
  - cbn [team_photos] in H.
    apply bind_returned_inv in H. destruct H as (image_path & _ & H).
    apply bind_returned_inv in H. destruct H as (image_stream & _ & H).
    apply bind_returned_inv in H. destruct H as (others & Hrest & H).
    simpl in H. injection H as <-. cbn [map]. rewrite (IH _ Hrest).
    now destruct image_stream.
Qed.

(** X12: a report that is produced holds one section per project, in order,
    and in it one photo cell per student, in order, labelled with the
    student's name ("Unknown" for a missing name): no student is dropped. *)
Theorem create_professional_docx_cells
        (store : Storage) (projects_data : list Project)
        (document : list (option bytes * list photo_cell)) :
  result (create_professional_docx store projects_data) = Returned document ->
  map (fun section => map cell_name (snd section)) document
  = map (fun project_data => map label (students project_data)) projects_data.
Proof.
  revert document. induction projects_data as [|project_data rest IH];
    intros document H.
  - simpl in H. now injection H as <-.
  - cbn [create_professional_docx] in H.
    apply bind_returned_inv in H. destruct H as (image_stream & _ & H).
    apply bind_returned_inv in H. destruct H as (cells & Hcells & H).
    apply bind_returned_inv in H. destruct H as (sections & Hrest & H).
    simpl in H. injection H as <-. cbn [map snd].
    now rewrite (team_photos_names _ _ _ Hcells), (IH _ Hrest).
Qed.

Lemma create_professional_docx_cells_sample :
  map (fun section => map cell_name (snd section))
      [(@None bytes, [Picture "Ali Khan" [x2a]; Placeholder "Unknown"])]
  = map (fun project_data => map label (students project_data))
        [ {| id := Some "p1"; title := Some "Robotics"; imageUrl := None;
             students :=
               [ {| name := Some "Ali Khan"; email := None; role := None |};
                 {| name := None; email := None; role := None |} ] |} ].
Proof.
  apply (create_professional_docx_cells
           (bucket_of [("students/ali_khan.jpg", [x2a])])).
  reflexivity.
Defined.

Lemma get_student_image_path_some (store : Storage) (student_name blob : string) :
  result (get_student_image_path store (Some student_name)) = Returned (Some blob) ->
  exists listing,
    listed store "students/" = Returned listing
    /\ find_first_match (student_patterns student_name) listing = Some blob.
Proof.
  unfold get_student_image_path.
  destruct (PyStr.truthy student_name); cbn [negb]; [|discriminate].
  intros H. apply bind_returned_inv in H. destruct H as (listing & Hl & H).
  exists listing. split; [exact Hl|].
  unfold result, ret in H. cbn [fst] in H. now injection H.
Qed.

(** X13: a picture among the team photos is the content of a blob that is
    in the listing of [students/], that one of the student's candidate
    patterns matches, and whose download returned these bytes. *)
Theorem team_photos_pictures
        (store : Storage) (students_data : list Student)
        (cells : list photo_cell) (student_name : string) (image : bytes) :
  result (team_photos store students_data) = Returned cells ->
  In (Picture student_name image) cells ->
  exists listing blob,
    listed store "students/" = Returned listing
    /\ In blob listing
    /\ (exists p, In p (student_patterns student_name)
                  /\ student_match p blob = true)
    /\ present store blob = Returned true
    /\ content store blob = Returned image.
Proof.
  revert cells. induction students_data as [|student rest IH]; intros cells H Hin.
  - simpl in H. injection H as <-. destruct Hin.
  - cbn [team_photos] in H.
    apply bind_returned_inv in H. destruct H as (image_path & Hpath & H).
    apply bind_returned_inv in H. destruct H as (image_stream & Hstream & H).
    apply bind_returned_inv in H. destruct H as (others & Hrest & H).
    simpl in H. injection H as <-.
    destruct Hin as [Hhead | Htail]; [|now apply (IH others)].
    destruct image_stream as [data|]; [|discriminate].
    injection Hhead as Hn Hd. rewrite <- Hn, <- Hd. clear Hn Hd.
    destruct image_path as [blob|]; [|discriminate].
    destruct (PyStr.truthy blob); [|discriminate].
    rewrite download_run in Hstream. cbn [result fst] in Hstream.
    destruct (get_student_image_path_some _ _ _ Hpath) as (listing & Hl & Hfound).
    destruct (find_first_match_some _ _ _ Hfound) as [Hb Hp].
    exists listing, blob. split; [exact Hl|]. split; [exact Hb|]. split; [exact Hp|].
    unfold stored in Hstream.
    destruct (PyStr.truthy blob); [|discriminate].
    destruct (present store blob) as [[|]|]; try discriminate.
    destruct (content store blob); [|discriminate].
    split; congruence.
Qed.

Lemma team_photos_pictures_sample :
  exists listing blob,
    listed (bucket_of [("students/ali_khan.jpg", [x2a])]) "students/"
    = Returned listing
    /\ In blob listing
    /\ (exists p, In p (student_patterns "Ali Khan")
                  /\ student_match p blob = true)
    /\ present (bucket_of [("students/ali_khan.jpg", [x2a])]) blob = Returned true
    /\ content (bucket_of [("students/ali_khan.jpg", [x2a])]) blob = Returned [x2a].
Proof.
  apply (team_photos_pictures
           (bucket_of [("students/ali_khan.jpg", [x2a])])
           [ {| name := Some "Ali Khan"; email := None; role := None |} ]
           [Picture "Ali Khan" [x2a]]).
  - reflexivity.
  - now left.
Defined.

Lemma bind_ret {A B} (a : A) (f : A -> M B) : bind (ret a) f = f a.
Proof. unfold bind, ret. now destruct (f a). Qed.

Lemma team_photos_listing_raised (store : Storage) (students_data : list Student) :
  listed store "students/" = Raised ->
  (filter named students_data = [] ->
   exists cells, result (team_photos store students_data) = Returned cells)
  /\ (filter named students_data <> [] ->
      result (team_photos store students_data) = Raised).
Proof.
  intros Hlisting.
  induction students_data as [|student rest [IH1 IH2]].
  - split; [intros _; now eexists | intros H; now contradiction H].
  - cbn [team_photos filter]. unfold get_student_image_path.
    destruct (named student) eqn:En; unfold named in En; rewrite En; cbn [negb].
    + split; [discriminate|]. intros _.
      rewrite (bind_raised (list_blobs store "students/") _ Hlisting).
      reflexivity.
    + rewrite !bind_ret. split.
      * intros H. destruct (IH1 H) as [cells Hc].
        rewrite (bind_run _ _ _ Hc). now eexists.
      * intros H. now rewrite (bind_raised _ _ (IH2 H)).
Qed.

Lemma named_students_zero (projects_data : list Project) :
  named_students projects_data = 0 <->
  forall p, In p projects_data -> filter named (students p) = [].
Proof.
  unfold named_students. induction projects_data as [|p rest IH]; simpl.
  - split; [intros _ q [] | reflexivity].
  - rewrite Nat.eq_add_0, IH, length_zero_iff_nil. split.
    + intros [H1 H2] q [<- | Hq]; [assumption | now apply H2].
    + intros H. split; [apply H; now left | intros q Hq; apply H; now right].
Qed.

(** X14: when the listing of [projects/] is available and the listing of
    [students/] raises, the report is lost (the exception leaves
    [create_professional_docx]) exactly when some student of some project has
    a name that passes the resolver's guard. *)
Theorem create_professional_docx_students_listing_raises
        (store : Storage) (projects_listing : list string)
        (projects_data : list Project) :
  listed store "projects/" = Returned projects_listing ->
  listed store "students/" = Raised ->
  (result (create_professional_docx store projects_data) = Raised
   <-> 0 < named_students projects_data).
Proof.
  intros Hprojects Hstudents.
  induction projects_data as [|project_data rest IH].
  - simpl. split; [discriminate | unfold named_students; simpl; lia].
  - cbn [create_professional_docx].
    destruct (fetches_get_project_image store projects_listing project_data Hprojects)
      as [[image Himage] _].
    rewrite (bind_run _ _ _ Himage). cbn [result fst].
    destruct (team_photos_listing_raised store (students project_data) Hstudents)
      as [Hnone Hsome].
    assert (Hsplit : named_students (project_data :: rest)
                     = List.length (filter named (students project_data))
                       + named_students rest) by reflexivity.
    rewrite Hsplit.
    destruct (filter named (students project_data)) as [|s l] eqn:E.
    + destruct (Hnone eq_refl) as [cells Hc].
      rewrite (bind_run _ _ _ Hc). cbn [result fst List.length Nat.add].
      rewrite <- IH.
      destruct (create_professional_docx store rest) as [[sections|] t];
        simpl; split; intros H; try discriminate; reflexivity.
    + rewrite bind_raised by (apply Hsome; discriminate).
      cbn [result fst List.length]. split; [lia | reflexivity].
Qed.

Lemma create_professional_docx_students_listing_raises_sample :
  result (create_professional_docx
            {| listed := fun prefix =>
                 if String.eqb prefix "projects/" then Returned [] else Raised;
               present := fun _ => Returned false;
               content := fun _ => Raised |}
            [ {| id := Some "p1"; title := Some "Robotics"; imageUrl := None;
                 students := [] |};
              {| id := Some "p2"; title := Some "Drone"; imageUrl := None;
                 students :=
                   [ {| name := Some "Ali Khan"; email := None; role := None |} ] |} ])
  = Raised.
Proof.
  apply (create_professional_docx_students_listing_raises
           {| listed := fun prefix =>
                if String.eqb prefix "projects/" then Returned [] else Raised;
              present := fun _ => Returned false;
              content := fun _ => Raised |} []).
  - reflexivity.
  - reflexivity.
  - unfold named_students. simpl. lia.
Defined.

(** X15: a download never raises, whatever the store does: it returns the
    bytes exactly when the path is not empty, the blob is reported present
    and its download returns them, and "no image" otherwise; it asks for the
    bytes only after the store reported the blob present. *)
Theorem download_image_from_storage_never_raises (store : Storage) (path : string) :
  exists r,
    result (download_image_from_storage store path) = Returned r
    /\ (forall data,
          r = Some data <->
          PyStr.truthy path = true
          /\ present store path = Returned true
          /\ content store path = Returned data)
    /\ (In (Download path) (trace (download_image_from_storage store path)) ->
        present store path = Returned true).
Proof.
  rewrite download_run. exists (stored store path).
  split; [reflexivity|]. unfold stored, download_calls. cbn [trace snd].
  destruct (PyStr.truthy path).
  - destruct (present store path) as [[|]|].
    + destruct (content store path) as [d|]; split.
      * intros data. split.
        -- intros [= <-]. now repeat split.
        -- intros (_ & _ & [= <-]). reflexivity.
      * reflexivity.
      * intros data. split; [discriminate | intros (_ & _ & H); discriminate].
      * reflexivity.
    + split.
      * intros data. split; [discriminate | intros (_ & H & _); discriminate].
      * intros [H | []]; discriminate.
    + split.
      * intros data. split; [discriminate | intros (_ & H & _); discriminate].
      * intros [H | []]; discriminate.
  - split.
    + intros data. split; [discriminate | intros (H & _); discriminate].
    + intros [].
Qed.

Lemma download_image_from_storage_never_raises_sample :
  exists r,
    result (download_image_from_storage
              (bucket_of [("students/ali_khan.jpg", [x2a])])
              "students/ali_khan.jpg") = Returned r
    /\ (forall data,
          r = Some data <->
          PyStr.truthy "students/ali_khan.jpg" = true
          /\ present (bucket_of [("students/ali_khan.jpg", [x2a])])
                     "students/ali_khan.jpg" = Returned true
          /\ content (bucket_of [("students/ali_khan.jpg", [x2a])])
                     "students/ali_khan.jpg" = Returned data)
    /\ (In (Download "students/ali_khan.jpg")
           (trace (download_image_from_storage
                     (bucket_of [("students/ali_khan.jpg", [x2a])])
                     "students/ali_khan.jpg")) ->
        present (bucket_of [("students/ali_khan.jpg", [x2a])])
                "students/ali_khan.jpg" = Returned true).
Proof.
  exact (download_image_from_storage_never_raises
           (bucket_of [("students/ali_khan.jpg", [x2a])]) "students/ali_khan.jpg").
Defined.

Lemma replace_char_removes (o : ascii) (new s : string) :
  PyStr.contains_char o new = false ->
  PyStr.contains_char o (PyStr.replace (String o "") new s) = false.
Proof.
  intros Hnew. unfold PyStr.replace.
  induction s as [|d s IH]; [reflexivity|].
  cbn [PyStr.replace_aux PyStr.starts_with String.length Nat.sub].
  rewrite andb_true_r. destruct (Ascii.eqb o d) eqn:E.
  - now rewrite contains_char_append, Hnew, IH.
  - cbn [PyStr.contains_char]. now rewrite E, IH.
Qed.

Lemma replace_char_keeps (c o : ascii) (new s : string) :
  PyStr.contains_char c new = false ->
  PyStr.contains_char c s = false ->
  PyStr.contains_char c (PyStr.replace (String o "") new s) = false.
Proof.
  intros Hnew. unfold PyStr.replace.
  induction s as [|d s IH]; [reflexivity|].
  cbn [PyStr.replace_aux PyStr.starts_with String.length Nat.sub PyStr.contains_char].
  rewrite andb_true_r, orb_false_iff. intros [Hd Hs].
  destruct (Ascii.eqb o d).
  - now rewrite contains_char_append, Hnew, IH.
  - cbn [PyStr.contains_char]. now rewrite Hd, IH.
Qed.

(** X16: a sanitised e-mail address holds neither [@] nor [.]. *)
Theorem sanitize_filename_for_storage_safe (email : option string) :
  PyStr.contains_char "@" (sanitize_filename_for_storage email) = false
  /\ PyStr.contains_char "." (sanitize_filename_for_storage email) = false.
Proof.
  destruct email as [[|c s]|]; try (split; reflexivity).
  unfold sanitize_filename_for_storage. cbn [PyStr.truthy negb]. split.
  - apply replace_char_keeps; [reflexivity|].
    now apply replace_char_removes.
  - now apply replace_char_removes.
Qed.

Lemma all_chars_contains (test : ascii -> bool) (s : string) (c : ascii) :
  all_chars test s = true -> PyStr.contains_char c s = true -> test c = true.
Proof.
  induction s as [|d s IH]; [discriminate|].
  cbn [all_chars PyStr.contains_char].
  rewrite andb_true_iff, orb_true_iff. intros [Hd Hs] [E | H].
  - apply Ascii.eqb_eq in E. now subst.
  - now apply IH.
Qed.

Lemma keep_chars_length (test : ascii -> bool) (s : string) :
  String.length (PyStr.keep_chars test s) <= String.length s.
Proof.
  induction s as [|c s IH]; simpl; [lia|].
  destruct (test c); simpl; lia.
Qed.

(** X17: every character of a cleaned filename is a letter, a digit, [_],
    [.] or [-] (so it holds no path separator, no space and no glob
    operator). *)
Theorem clean_filename_safe (filename : option string) (c : ascii) :
  PyStr.contains_char c (clean_filename filename) = true ->
  filename_char c = true.
Proof. apply all_chars_contains, clean_filename_chars. Qed.

Lemma clean_filename_safe_sample :
  filename_char "v" = true.
Proof.
  apply (clean_filename_safe (Some "My Project: v2.0 (final)!") "v"). reflexivity.
Defined.

Lemma audited_app (store : Storage) (t1 t2 : list call) :
  audited store t1 -> audited store t2 -> audited store (t1 ++ t2).
Proof.
  intros H1 H2. induction H1; cbn [app].
  - assumption.
  - now constructor.
  - now constructor.
  - now constructor.
Qed.

Lemma audited_download_calls (store : Storage) (path : string) :
  audited store (download_calls store path).
Proof.
  unfold download_calls. destruct (PyStr.truthy path); [|constructor].
  destruct (present store path) as [[|]|] eqn:E;
    repeat constructor; assumption.
Qed.

Lemma audited_bind {A B} (store : Storage) (m : M A) (f : A -> M B) :
  audited store (trace m) ->
  (forall a, audited store (trace (f a))) ->
  audited store (trace (bind m f)).
Proof.
  intros Hm Hf. destruct m as [[a|] t]; cbn [trace snd] in Hm.
  - rewrite bind_returned. cbn [trace snd]. now apply audited_app.
  - assumption.
Qed.

Lemma audited_ret {A} (store : Storage) (a : A) : audited store (trace (ret a)).
Proof. constructor. Qed.

Lemma audited_download_image (store : Storage) (path : string) :
  audited store (trace (download_image_from_storage store path)).
Proof. rewrite download_run. apply audited_download_calls. Qed.

Lemma audited_try_image_url (store : Storage) (url : string) :
  audited store (trace (try_image_url store url)).
Proof.
  unfold try_image_url. apply audited_bind; [apply audited_download_image|].
  intros [stream|]; [apply audited_ret|].
  destruct (negb _); [apply audited_download_image | apply audited_ret].
Qed.

Lemma audited_try_listed (store : Storage) (pattern : string) (blobs : list string) :
  audited store (trace (try_listed store pattern blobs)).
Proof.
  induction blobs as [|b blobs IH]; cbn [try_listed]; [apply audited_ret|].
  destruct (project_match pattern b); [|assumption].
  apply audited_bind; [apply audited_download_image|].
  intros [stream|]; [apply audited_ret | assumption].
Qed.

Lemma audited_try_patterns (store : Storage) (patterns : list string) :
  audited store (trace (try_patterns store patterns)).
Proof.
  induction patterns as [|p patterns IH]; cbn [try_patterns]; [apply audited_ret|].
  apply audited_bind.
  - unfold try_pattern. destruct (PyStr.contains_char "*" p).
    + apply audited_bind.
      * constructor; [now right | constructor].
      * intros blobs. apply audited_try_listed.
    + apply audited_download_image.
  - intros [stream|]; [apply audited_ret | assumption].
Qed.

Lemma audited_get_project_image (store : Storage) (project_data : Project) :
  audited store (trace (get_project_image store project_data)).
Proof.
  rewrite get_project_image_stages. apply audited_bind.
  - unfold url_stage. destruct (imageUrl project_data) as [url|]; [|apply audited_ret].
    destruct (PyStr.truthy url); [|apply audited_ret].
    destruct (try_image_url_returns store url) as [r Hr].
    rewrite (try_except_returned _ _ _ Hr). apply audited_try_image_url.
  - intros [stream|]; [apply audited_ret|].
    apply audited_bind; [apply audited_try_patterns|].
    intros [stream|]; [apply audited_ret | apply audited_download_image].
Qed.

Lemma audited_get_student_image_path (store : Storage) (student_name : option string) :
  audited store (trace (get_student_image_path store student_name)).
Proof.
  unfold get_student_image_path. destruct student_name as [given|]; [|apply audited_ret].
  destruct (negb _); [apply audited_ret|].
  apply audited_bind.
  - constructor; [now left | constructor].
  - intros blobs. apply audited_ret.
Qed.

Lemma audited_team_photos (store : Storage) (students_data : list Student) :
  audited store (trace (team_photos store students_data)).
Proof.
  induction students_data as [|student rest IH]; cbn [team_photos];
    [apply audited_ret|].
  apply audited_bind; [apply audited_get_student_image_path|].
  intros image_path. apply audited_bind.
  - destruct image_path as [path|]; [|apply audited_ret].
    destruct (PyStr.truthy path); [apply audited_download_image | apply audited_ret].
  - intros image_stream. apply audited_bind; [exact IH|].
    intros cells. apply audited_ret.
Qed.

(** X18: whatever the store answers, a report generation lists only the
    prefixes [students/] and [projects/], and it downloads a blob only
    directly after an existence check of that same blob which the store
    answered with true. *)
Theorem create_professional_docx_audited
        (store : Storage) (projects_data : list Project) :
  audited store (trace (create_professional_docx store projects_data)).
Proof.
  induction projects_data as [|project_data rest IH];
    cbn [create_professional_docx]; [apply audited_ret|].
  apply audited_bind; [apply audited_get_project_image|].
  intros image_stream. apply audited_bind; [apply audited_team_photos|].
  intros cells. apply audited_bind; [exact IH|].
  intros sections. apply audited_ret.
Qed.

Lemma fetch_projects_ids (db : Database) (docs : list ProjectDoc) :
  map (fun f => id (fetched f)) (fetch_projects db docs)
  = map (fun d => Some (doc_id d)) (filter usable docs).
Proof.
  induction docs as [|d docs IH]; [reflexivity|].
  cbn [fetch_projects filter]. unfold fetch_project, usable.
  destruct (doc_exists d); cbn [negb andb]; [|exact IH].
  destruct (to_dict d); [|exact IH].
  cbn [map fetched id]. now rewrite IH.
Qed.

(** X20: the fetch raises exactly when the query raises; otherwise it
    returns, in the order of the query, one project for every document that
    exists and whose conversion returns, with the document's id as its id: a
    document that is missing or whose conversion raises is skipped. *)
Theorem fetch_all_projects_usable
        (db : Database) (status_filter : option string) (limit : option nat) :
  let applied :=
    match status_filter with
    | Some s => if PyStr.truthy s then Some s else None
    | None => None
    end in
  (fetch_all_projects db status_filter limit = Raised
   <-> stream_projects db applied limit = Raised)
  /\ (forall docs, stream_projects db applied limit = Returned docs ->
      exists projects_data,
        fetch_all_projects db status_filter limit = Returned projects_data
        /\ map (fun f => id (fetched f)) projects_data
           = map (fun d => Some (doc_id d)) (filter usable docs)).
Proof.
  intros applied. unfold fetch_all_projects. fold applied.
  destruct (stream_projects db applied limit) as [docs|]; split.
  - split; discriminate.
  - intros docs' [= <-]. eexists. split; [reflexivity | apply fetch_projects_ids].
  - split; reflexivity.
  - intros docs' H. discriminate.
Qed.

Lemma fetch_all_projects_usable_sample :
  exists projects_data,
    fetch_all_projects
      {| stream_projects := fun _ _ =>
           Returned
             [ {| doc_exists := false; doc_id := "p0"; to_dict := Raised |};
               {| doc_exists := true; doc_id := "p1";
                  to_dict := Returned {| raw_title := Some "Robotics";
                                         raw_imageUrl := None; raw_students := None;
                                         supervisorId := None; coSupervisorId := None |} |};
               {| doc_exists := true; doc_id := "p2"; to_dict := Raised |} ];
         stream_students := fun _ => [];
         get_teacher := fun _ => Raised |}
      (Some "") (Some 100)
    = Returned projects_data
    /\ map (fun f => id (fetched f)) projects_data
       = map (fun d => Some (doc_id d))
           (filter usable
              [ {| doc_exists := false; doc_id := "p0"; to_dict := Raised |};
                {| doc_exists := true; doc_id := "p1";
                   to_dict := Returned {| raw_title := Some "Robotics";
                                          raw_imageUrl := None; raw_students := None;
                                          supervisorId := None; coSupervisorId := None |} |};
                {| doc_exists := true; doc_id := "p2"; to_dict := Raised |} ]).
Proof.
  apply (proj2 (fetch_all_projects_usable _ (Some "") (Some 100))). reflexivity.
Defined.

Lemma normalize_student_complete (student : Student) :
  complete (normalize_student student) = true.
Proof. reflexivity. Qed.

Lemma embedded_students_complete (entries : list (option Student)) (s : Student) :
  In s (embedded_students entries) -> complete s = true.
Proof.
  induction entries as [|[e|] entries IH]; cbn [embedded_students].
  - intros [].
  - intros [<- | H]; [reflexivity | now apply IH].
  - exact IH.
Qed.

Lemma subcollection_students_complete (stream : list (outcome StudentDoc)) (s : Student) :
  In s (subcollection_students stream) -> complete s = true.
Proof.
  induction stream as [|[d|] stream IH]; cbn [subcollection_students].
  - intros [].
  - destruct (student_exists d); [|exact IH].
    intros [<- | H]; [reflexivity | now apply IH].
  - intros [].
Qed.

Lemma embedded_students_nonempty (entries : list (option Student)) (s0 : Student) :
  In (Some s0) entries -> embedded_students entries <> [].
Proof.
  induction entries as [|[e|] entries IH]; cbn [embedded_students].
  - intros [].
  - intros _. discriminate.
  - intros [H | H]; [discriminate | now apply IH].
Qed.

(** X21: every student of a fetched project has its name, e-mail and role
    present; when the embedded list holds at least one dictionary the
    students are those of the embedded list and the subcollection is not
    used; and of a subcollection whose reading raises, the students read
    before the failure are kept. *)
Theorem project_students_normalised :
  (forall (db : Database) (project_id : string) (raw : RawProject) (s : Student),
      In s (project_students db project_id raw) -> complete s = true)
  /\ (forall (db : Database) (project_id : string) (raw : RawProject)
             (entries : list (option Student)) (s0 : Student),
         raw_students raw = Some entries -> In (Some s0) entries ->
         project_students db project_id raw = embedded_students entries)
  /\ (forall (good rest : list (outcome StudentDoc)),
         subcollection_students (good ++ Raised :: rest)
         = subcollection_students good).
Proof.
  split; [|split].
  - intros db project_id raw s. unfold project_students.
    destruct (raw_students raw) as [entries|].
    + destruct (embedded_students entries) as [|e l] eqn:E.
      * apply subcollection_students_complete.
      * rewrite <- E. apply embedded_students_complete.
    + apply subcollection_students_complete.
  - intros db project_id raw entries s0 Hraw Hin. unfold project_students.
    rewrite Hraw. pose proof (embedded_students_nonempty _ _ Hin) as Hne.
    destruct (embedded_students entries); [now contradiction Hne | reflexivity].
  - intros good rest. induction good as [|[d|] good IH]; cbn [app subcollection_students].
    + reflexivity.
    + now rewrite IH.
    + reflexivity.
Qed.

Lemma project_students_normalised_sample :
  project_students
    {| stream_projects := fun _ _ => Raised;
       stream_students := fun _ => [Raised];
       get_teacher := fun _ => Raised |}
    "p1"
    {| raw_title := None; raw_imageUrl := None;
       raw_students :=
         Some [None; Some {| name := None; email := Some "a@uni.edu"; role := None |}];
       supervisorId := None; coSupervisorId := None |}
  = embedded_students
      [None; Some {| name := None; email := Some "a@uni.edu"; role := None |}].
Proof.
  apply (proj1 (proj2 project_students_normalised) _ _ _ _
               {| name := None; email := Some "a@uni.edu"; role := None |}).
  - reflexivity.
  - right. now left.
Defined.

Lemma fetch_projects_length (db : Database) (docs : list ProjectDoc) :
  List.length (fetch_projects db docs) = List.length (filter usable docs).
Proof.
  rewrite <- (length_map (fun f => id (fetched f))), fetch_projects_ids.
  apply length_map.
Qed.

Lemma create_professional_docx_returns
      (store : Storage) (students_listing projects_listing : list string)
      (projects_data : list Project) :
  listed store "students/" = Returned students_listing ->
  listed store "projects/" = Returned projects_listing ->
  exists document,
    result (create_professional_docx store projects_data) = Returned document.
Proof.
  intros Hs Hp.
  induction projects_data as [|p rest [sections IH]]; [now eexists|].
  cbn [create_professional_docx].
  destruct (fetches_get_project_image store projects_listing p Hp) as [[image Hi] _].
  destruct (fetches_team_photos store students_listing (students p) Hs) as [[cells Hc] _].
  rewrite (bind_run _ _ _ Hi), (bind_run _ _ _ Hc), (bind_run _ _ _ IH).
  now eexists.
Qed.

(** X22: when the query returns and both listings are available, the
    response is 404, without any store call, when no document of the query
    is usable; otherwise the report is built and the response is 200 with
    the number of usable documents when the publication returns, and 500
    when it raises. *)
Theorem generate_docx_status
        (db : Database) (store : Storage)
        (publish : list (option bytes * list photo_cell) -> outcome string)
        (request : Request) (docs : list ProjectDoc)
        (students_listing projects_listing : list string) :
  stream_projects db
    (match status request with
     | Some s => if PyStr.truthy s then Some s else None
     | None => None
     end)
    (Some (match limit request with Some n => n | None => 100 end))
  = Returned docs ->
  listed store "students/" = Returned students_listing ->
  listed store "projects/" = Returned projects_listing ->
  (filter usable docs = [] ->
   generate_docx db store publish request
   = ({| status_code := 404; success := false;
         projects_count := None; download_url := None |}, []))
  /\ (filter usable docs <> [] ->
      exists document t,
        create_professional_docx store (map fetched (fetch_projects db docs))
        = (Returned document, t)
        /\ generate_docx db store publish request
           = (match publish document with
              | Returned url =>
                  {| status_code := 200; success := true;
                     projects_count := Some (List.length (filter usable docs));
                     download_url := Some url |}
              | Raised =>
                  {| status_code := 500; success := false;
                     projects_count := None; download_url := None |}
              end, t)).
Proof.
  intros Hquery Hs Hp. unfold generate_docx, fetch_all_projects.
  rewrite Hquery.
  pose proof (fetch_projects_length db docs) as Hlen.
  destruct (fetch_projects db docs) as [|f fs] eqn:E; split.
  - reflexivity.
  - intros Hne. exfalso. apply Hne. apply length_zero_iff_nil.
    now rewrite <- Hlen.
  - intros Hnil. rewrite Hnil in Hlen. discriminate.
  - intros _.
    destruct (create_professional_docx_returns store students_listing projects_listing
                (map fetched (f :: fs)) Hs Hp) as [document Hd].
    destruct (create_professional_docx store (map fetched (f :: fs))) as [r t] eqn:Ec.
    cbn [result fst] in Hd. subst r.
    exists document, t. split; [reflexivity|].
    rewrite <- Hlen. now destruct (publish document).
Qed.

Lemma generate_docx_status_sample :
  generate_docx
    {| stream_projects := fun _ _ =>
         Returned [ {| doc_exists := false; doc_id := "p0"; to_dict := Raised |};
                    {| doc_exists := true; doc_id := "p1"; to_dict := Raised |} ];
       stream_students := fun _ => [];
       get_teacher := fun _ => Raised |}
    (bucket_of [])
    (fun _ => Returned "https://storage.example/report.docx")
    {| status := None; limit := None |}
  = ({| status_code := 404; success := false;
        projects_count := None; download_url := None |}, []).
Proof.
  apply (generate_docx_status
           {| stream_projects := fun _ _ =>
                Returned [ {| doc_exists := false; doc_id := "p0"; to_dict := Raised |};
                           {| doc_exists := true; doc_id := "p1"; to_dict := Raised |} ];
              stream_students := fun _ => [];
              get_teacher := fun _ => Raised |}
           (bucket_of [])
           (fun _ => Returned "https://storage.example/report.docx")
           {| status := None; limit := None |}
           [ {| doc_exists := false; doc_id := "p0"; to_dict := Raised |};
             {| doc_exists := true; doc_id := "p1"; to_dict := Raised |} ]
           [] [] eq_refl eq_refl eq_refl).
  reflexivity.
Defined.

Lemma mod3_steps (i : nat) :
  i mod 3 = 0 ->
  S i mod 3 = 1 /\ S (S i) mod 3 = 2 /\ S (S (S i)) mod 3 = 0.
Proof.
  intros H. pose proof (Nat.div_mod_eq i 3) as E. rewrite H, Nat.add_0_r in E.
  set (q := i / 3) in E. rewrite E. repeat split.
  - replace (S (3 * q)) with (1 + q * 3) by lia. now rewrite Nat.Div0.mod_add.
  - replace (S (S (3 * q))) with (2 + q * 3) by lia. now rewrite Nat.Div0.mod_add.
  - replace (S (S (S (3 * q)))) with (0 + (S q) * 3) by lia.
    now rewrite Nat.Div0.mod_add.
Qed.

Lemma by_threes (P : list photo_cell -> Prop) :
  P [] -> (forall a, P [a]) -> (forall a b, P [a; b]) ->
  (forall a b c rest, P rest -> P (a :: b :: c :: rest)) ->
  forall l, P l.
Proof.
  intros H0 H1 H2 H3.
  assert (H : forall l, P l /\ (forall a, P (a :: l)) /\ (forall a b, P (a :: b :: l))).
  { induction l as [|c l (IH0 & IH1 & IH2)].
    - repeat split; auto.
    - split; [apply IH1|]. split; [intros a; apply IH2|]. intros a b. now apply H3. }
  intros l. apply H.
Qed.

Lemma photo_loop_rows (cells : list photo_cell) :
  forall i finished current,
    i mod 3 = 0 ->
    photo_loop i finished current cells = Returned (laid_out finished current cells).
Proof.
  induction cells as [| a | a b | a b c rest IH] using by_threes;
    intros i finished current Hi;
    destruct (mod3_steps i Hi) as (H1 & H2 & H3).
  - unfold laid_out. now destruct current.
  - cbn [photo_loop]. unfold photos_per_row. rewrite Hi. cbn [Nat.eqb app].
    unfold laid_out. destruct current; cbn [rows_of_three spaced];
      now rewrite <- ?app_assoc.
  - cbn [photo_loop]. unfold photos_per_row. rewrite Hi, H1. cbn [Nat.eqb app].
    unfold laid_out. destruct current; cbn [rows_of_three spaced];
      now rewrite <- ?app_assoc.
  - cbn [photo_loop]. unfold photos_per_row. rewrite Hi, H1, H2. cbn [Nat.eqb app].
    fold photos_per_row.
    assert (Hspaced : forall fin,
               laid_out fin (Some [a; b; c]) rest
               = fin ++ spaced (rows_of_three (a :: b :: c :: rest))).
    { intros fin. unfold laid_out. cbn [rows_of_three].
      destruct rest as [|d rest']; [reflexivity|].
      cbn [spaced]. destruct (rows_of_three (d :: rest')) eqn:E; [|reflexivity].
      destruct rest' as [|e [|f rest'']]; discriminate. }
    destruct current as [row|].
    + rewrite (IH _ _ _ H3), Hspaced. unfold laid_out.
      now rewrite <- app_assoc.
    + rewrite (IH _ _ _ H3), Hspaced. reflexivity.
Qed.

Lemma rows_of_three_concat (cells : list photo_cell) :
  List.concat (rows_of_three cells) = cells.
Proof.
  induction cells as [| a | a b | a b c rest IH] using by_threes; try reflexivity.
  cbn [rows_of_three List.concat app]. now rewrite IH.
Qed.

Lemma rows_of_three_sizes (cells : list photo_cell) (row : list photo_cell) :
  In row (rows_of_three cells) -> 1 <= List.length row <= 3.
Proof.
  induction cells as [| a | a b | a b c rest IH] using by_threes;
    cbn [rows_of_three In].
  - intros [].
  - intros [<- | []]. simpl. lia.
  - intros [<- | []]. simpl. lia.
  - intros [<- | H]; [simpl; lia | now apply IH].
Qed.

Lemma rows_of_three_full (cells : list photo_cell) (row : list photo_cell) :
  In row (removelast (rows_of_three cells)) -> List.length row = 3.
Proof.
  induction cells as [| a | a b | a b c rest IH] using by_threes;
    cbn [rows_of_three removelast In]; try (intros []).
  destruct (rows_of_three rest) as [|r rs] eqn:E; [intros []|].
  intros [<- | H]; [reflexivity | now apply IH].
Qed.

(** X23: the team photos are laid out three to a row: the loop never adds a
    cell without a row, the rows hold the cells in order, every row has one
    to three cells and every row but the last has three, with a blank
    paragraph between two rows. *)
Theorem photo_paragraphs_rows (cells : list photo_cell) :
  exists rows,
    photo_paragraphs cells = Returned (spaced rows)
    /\ List.concat rows = cells
    /\ (forall row, In row rows -> 1 <= List.length row <= 3)
    /\ (forall row, In row (removelast rows) -> List.length row = 3).
Proof.
  exists (rows_of_three cells). split; [|split; [|split]].
  - unfold photo_paragraphs. now rewrite photo_loop_rows.
  - apply rows_of_three_concat.
  - apply rows_of_three_sizes.
  - apply rows_of_three_full.
Qed.

Lemma photo_paragraphs_rows_sample :
  exists rows,
    photo_paragraphs
      [Placeholder "a"; Placeholder "b"; Placeholder "c"; Placeholder "d"]
    = Returned (spaced rows)
    /\ List.concat rows
       = [Placeholder "a"; Placeholder "b"; Placeholder "c"; Placeholder "d"]
    /\ (forall row, In row rows -> 1 <= List.length row <= 3)
    /\ (forall row, In row (removelast rows) -> List.length row = 3).
Proof.
  exact (photo_paragraphs_rows
           [Placeholder "a"; Placeholder "b"; Placeholder "c"; Placeholder "d"]).
Defined.

Example photo_paragraphs_sample :
  photo_paragraphs
    [Placeholder "a"; Placeholder "b"; Placeholder "c"; Placeholder "d"]
  = Returned [Row [Placeholder "a"; Placeholder "b"; Placeholder "c"]; Blank;
              Row [Placeholder "d"]].
Proof. reflexivity. Qed.

Section ScalingFit.

Import Scaling.
Local Open Scope Q_scope.





End ScalingFit.
